(** * AmazonAthenaRetriever: the query-execution lifecycle

    A shallow embedding of [custom_database_retriever.py]
    (class [AmazonAthenaRetriever]) and the properties of its
    [_get_relevant_documents] method: the bounded polling loop, its sleep
    schedule, and the shaping of the two returned documents.

    Modelling conventions.
    - The boto3 clients are external collaborators.  Each call either
      returns a response or raises; the calls made are recorded, in order,
      in a log, together with the [time.sleep] and [print] effects.
    - A response is a record that follows the keys the code reads.  A key the
      code tests with [in] before reading it is an optional field; a key the
      code subscripts without a test is a plain field, but for the
      [VarCharValue] of a cell: Athena leaves that key out of a NULL cell, so
      the field is optional and its subscript raises [KeyError] when it is
      absent.
    - The status of a query may change between two polls, so the answer of
      [get_query_execution] depends on how many polls were made before. *)

From Stdlib Require Import QArith.
From stdpp Require Import gmap strings list fin_maps.

Local Open Scope string_scope.
Local Open Scope list_scope.
Local Open Scope nat_scope.

(** ** Exceptions and outcomes *)

Inductive exn : Type :=
| ValueError (msg : string)
| IndexError
| KeyError (key : string)
| ClientError (msg : string).

Inductive outcome (A : Type) : Type :=
| Returned (a : A)
| Raised (e : exn).
Arguments Returned {A} a.
Arguments Raised {A} e.

(** ** Responses of the collaborators *)

(** [start_query_execution]: the code reads [response['QueryExecutionId']]. *)
Record StartQueryExecutionOutput := {
  QueryExecutionId : string
}.

(** [get_query_execution]: the code reads
    [queryExecutionStatus["QueryExecution"]["Status"]["State"]] after testing
    each of the three keys with [in]. *)
Record QueryExecutionStatus := {
  State : option string
}.
Record QueryExecutionInfo := {
  Status : option QueryExecutionStatus
}.
Record GetQueryExecutionOutput := {
  QueryExecution : option QueryExecutionInfo
}.

(** [get_query_results]: the code reads
    [athenaResults['ResultSet']['Rows']], then [row['Data']] and
    [d['VarCharValue']] for every cell.  The cell of a NULL value has no
    [VarCharValue]. *)
Record Datum := {
  VarCharValue : option string
}.
Record Row := {
  Data : list Datum
}.
Record ResultSetT := {
  Rows : list Row
}.
Record GetQueryResultsOutput := {
  ResultSet : ResultSetT
}.

(** [invoke_model]: the code reads [response["content"][0]["text"]] from the
    decoded body. *)
Record ContentBlock := {
  text : string
}.
Record InvokeModelBody := {
  content : list ContentBlock
}.

(** ** Effects *)

Inductive event : Type :=
| InvokeModel (modelId question : string)
| StartQueryExecution (QueryString Database OutputLocation : string)
| GetQueryExecution (executionID : string)
| Sleep (secs : Q)
| Print (n : nat)
| GetQueryResults (executionID : string).

Definition is_poll (e : event) : bool :=
  match e with GetQueryExecution _ => true | _ => false end.
Definition is_fetch (e : event) : bool :=
  match e with GetQueryResults _ => true | _ => false end.

Definition count (p : event -> bool) (log : list event) : nat :=
  length (List.filter p log).

Definition polls_in : list event -> nat := count is_poll.
Definition fetches_in : list event -> nat := count is_fetch.

Fixpoint sleeps_in (log : list event) : list Q :=
  match log with
  | [] => []
  | Sleep d :: rest => d :: sleeps_in rest
  | _ :: rest => sleeps_in rest
  end.

(** A computation reads the log of what happened so far, and extends it. *)
Definition M (A : Type) : Type := list event -> outcome A * list event.

Definition ret {A} (a : A) : M A := fun log => (Returned a, log).
Definition raise {A} (e : exn) : M A := fun log => (Raised e, log).
Definition bind {A B} (m : M A) (k : A -> M B) : M B :=
  fun log =>
    match m log with
    | (Returned a, log') => k a log'
    | (Raised e, log') => (Raised e, log')
    end.
Definition emit (e : event) : M unit := fun log => (Returned tt, log ++ [e]).
Definition lift {A} (o : outcome A) : M A := fun log => (o, log).

(** [let! x := m in k]: run [m]; if it raises, the exception propagates;
    otherwise go on with [k]. *)
Notation "'let!' x ':=' m 'in' k" := (bind m (fun x => k))
  (at level 10, x name, m at level 100, k at level 200,
   format "'[v' 'let!'  x  ':='  m  'in' '/' k ']'").

(** ** The clients *)

Record AthenaClient := {
  start_query_execution :
    string -> string -> string -> outcome StartQueryExecutionOutput;
  (** the first argument is the number of polls made before this one *)
  get_query_execution : nat -> string -> outcome GetQueryExecutionOutput;
  get_query_results : string -> outcome GetQueryResultsOutput
}.

Record BedrockClient := {
  (** the request body is fixed but for the question, see
      [generate_sql_query] *)
  invoke_model : string -> string -> outcome InvokeModelBody
}.

Record AmazonAthenaRetriever := {
  database : string;
  RESULT_OUTPUT_LOCATION : string;
  athena_client : AthenaClient;
  bedrock_client : option BedrockClient;
  model_id : string
}.

Record Document := {
  page_content : string;
  metadata : gmap string string
}.

(** ** The program *)

Section Retriever.

Variable self : AmazonAthenaRetriever.

(** [sql_generator]: the call of [invoke_model]; the [try ... except] only
    raises the exception it caught again. *)
Definition sql_generator (client : BedrockClient) (model : string)
    (question : string) : M InvokeModelBody :=
  let! _ := emit (InvokeModel model question) in
  lift (invoke_model client question model).

(** [generate_sql_query].  The dialect, the table list, the schema and the
    examples of the prompt are constants of the method: of the request only
    the question and the model identifier vary, and only they are kept. *)
Definition generate_sql_query (question : string) : M string :=
  match bedrock_client self with
  | None => raise (ValueError "Bedrock client is not initialized.")
  | Some client =>
      let! response := sql_generator client (model_id self) question in
      match content response with
      | [] => raise IndexError
      | block :: _ => ret (text block)
      end
  end.

(** The three collaborator calls of [_get_relevant_documents]. *)
Definition call_start_query_execution (SQLQuery : string)
    : M StartQueryExecutionOutput :=
  let! _ := emit (StartQueryExecution SQLQuery (database self)
                                      (RESULT_OUTPUT_LOCATION self)) in
  lift (start_query_execution (athena_client self) SQLQuery (database self)
                              (RESULT_OUTPUT_LOCATION self)).

Definition call_get_query_execution (executionID : string)
    : M GetQueryExecutionOutput :=
  fun log =>
    (get_query_execution (athena_client self) (polls_in log) executionID,
     log ++ [GetQueryExecution executionID]).

Definition call_get_query_results (executionID : string)
    : M GetQueryResultsOutput :=
  let! _ := emit (GetQueryResults executionID) in
  lift (get_query_results (athena_client self) executionID).

(** The state field of a status response, when all three keys are there
    (the condition of the [if] of lines 234-238). *)
Definition reported_state (queryExecutionStatus : GetQueryExecutionOutput)
    : option string :=
  match QueryExecution queryExecutionStatus with
  | Some qe =>
      match Status qe with
      | Some st => State st
      | None => None
      end
  | None => None
  end.

(** Lines 239-241: what one status response does to [state] and
    [fetch_results]. *)
Definition update_state (queryExecutionStatus : GetQueryExecutionOutput)
    (state : string) (fetch_results : bool) : string * bool :=
  match reported_state queryExecutionStatus with
  | Some state' =>
      if String.eqb state' "SUCCEEDED" then (state', true)
      else (state', fetch_results)
  | None => (state, fetch_results)
  end.

(** Lines 244-247. *)
Definition sleep_duration (max_execution : nat) : Q :=
  if max_execution mod 5 =? 0 then 3%Q else (1 # 2)%Q.

(** Lines 231-247: the [while] loop.  [max_execution] only counts down, so
    the loop is a recursion on it. *)
Fixpoint poll_loop (executionID : string) (max_execution : nat)
    (state : string) (fetch_results : bool) : M (nat * string * bool) :=
  match max_execution with
  | 0 => ret (max_execution, state, fetch_results)
  | S max_execution' =>
      if fetch_results then ret (max_execution, state, fetch_results)
      else
        let! queryExecutionStatus := call_get_query_execution executionID in
        let '(state', fetch_results') :=
          update_state queryExecutionStatus state fetch_results in
        let! _ := emit (Sleep (sleep_duration max_execution')) in
        poll_loop executionID max_execution' state' fetch_results'
  end.

(** Lines 219-257: submission, polling and the fetch of the results.  The
    result is the execution identifier, the state and [athenaResults]. *)
Definition execute_query (SQLQuery : string)
    : M (string * string * option GetQueryResultsOutput) :=
  let! response := call_start_query_execution SQLQuery in
  let executionID := QueryExecutionId response in
  let! polled := poll_loop executionID 20 "RUNNING" false in
  let '(max_execution, state, fetch_results) := polled in
  let! _ := emit (Print max_execution) in
  if fetch_results then
    let! athenaResults := call_get_query_results executionID in
    ret (executionID, state, Some athenaResults)
  else
    ret (executionID, state, None).

(** [d['VarCharValue']]: the subscript of a dictionary raises [KeyError]
    when the key is absent. *)
Definition subscript_VarCharValue (d : Datum) : outcome string :=
  match VarCharValue d with
  | Some value => Returned value
  | None => Raised (KeyError "VarCharValue")
  end.

(** Line 265: the list comprehension over the cells of a row, left at the
    first subscript that raises. *)
Fixpoint row_values (data : list Datum) : outcome (list string) :=
  match data with
  | [] => Returned []
  | d :: rest =>
      match subscript_VarCharValue d with
      | Returned value =>
          match row_values rest with
          | Returned values => Returned (value :: values)
          | Raised e => Raised e
          end
      | Raised e => Raised e
      end
  end.

(** Lines 265-266: one row, its values joined by [", "] between brackets. *)
Definition format_row (row : Row) : outcome string :=
  match row_values (Data row) with
  | Returned values => Returned ("[" +:+ String.concat ", " values +:+ "]")
  | Raised e => Raised e
  end.

(** Lines 264-266: the loop over the indices of [list_of_rows]. *)
Fixpoint rows_loop (indices : list nat) (list_of_rows : list Row)
    (value_str : string) : outcome string :=
  match indices with
  | [] => Returned value_str
  | ind :: rest =>
      match list_of_rows !! ind with
      | Some row =>
          match format_row row with
          | Returned formatted =>
              rows_loop rest list_of_rows (value_str +:+ formatted)
          | Raised e => Raised e
          end
      | None => Raised IndexError
      end
  end.

(** Lines 260-278: the data document. *)
Definition data_document (athenaResults : option GetQueryResultsOutput)
    : outcome Document :=
  match athenaResults with
  | Some results =>
      let list_of_rows := Rows (ResultSet results) in
      match rows_loop (seq 0 (length list_of_rows)) list_of_rows
                      EmptyString with
      | Returned value_str =>
          Returned {| page_content := value_str; metadata := ∅ |}
      | Raised e => Raised e
      end
  | None => Returned {| page_content := "NA"; metadata := ∅ |}
  end.

(** Lines 280-290: the metadata document. *)
Definition metadata_document (executionID SQLQuery state : string)
    : Document :=
  {| page_content := EmptyString;
     metadata := <["executionID" := executionID]>
                 (<["sqlQuery" := SQLQuery]>
                  (<["queryState" := state]> ∅)) |}.

(** Lines 259-291. *)
Definition process_documents (executionID SQLQuery state : string)
    (athenaResults : option GetQueryResultsOutput) : outcome (list Document) :=
  match data_document athenaResults with
  | Returned doc =>
      Returned ([doc] ++ [metadata_document executionID SQLQuery state])
  | Raised e => Raised e
  end.

Definition _get_relevant_documents (query : string) : M (list Document) :=
  let! SQLQuery := generate_sql_query query in
  let! executed := execute_query SQLQuery in
  let '(executionID, state, athenaResults) := executed in
  lift (process_documents executionID SQLQuery state athenaResults).

End Retriever.

(** ** Reading a run: responses, observed state, events of the loop *)

Section Runs.

Variable self : AmazonAthenaRetriever.

(** The answers to [k] consecutive polls, the first of which comes after
    [first] earlier polls. *)
Fixpoint polled (executionID : string) (first k : nat)
    : list (outcome GetQueryExecutionOutput) :=
  match k with
  | 0 => []
  | S k' =>
      get_query_execution (athena_client self) first executionID
      :: polled executionID (S first) k'
  end.

(** The state after a list of status responses: the last one reported, or
    the initial one when none was. *)
Definition observed (state : string) (statuses : list GetQueryExecutionOutput)
    : string :=
  fold_left (fun st r => default st (reported_state r)) statuses state.

Definition succeeded (r : GetQueryExecutionOutput) : Prop :=
  reported_state r = Some "SUCCEEDED".

(** The events of [k] iterations of the loop entered with budget
    [max_execution]. *)
Fixpoint iterations (executionID : string) (max_execution k : nat)
    : list event :=
  match k with
  | 0 => []
  | S k' =>
      GetQueryExecution executionID
      :: Sleep (sleep_duration (max_execution - 1))
      :: iterations executionID (max_execution - 1) k'
  end.

(** The submission of a query: the event and its outcome. *)
Definition submission (SQLQuery : string) : event :=
  StartQueryExecution SQLQuery (database self) (RESULT_OUTPUT_LOCATION self).

Definition submit (SQLQuery : string) : outcome StartQueryExecutionOutput :=
  start_query_execution (athena_client self) SQLQuery (database self)
                        (RESULT_OUTPUT_LOCATION self).

End Runs.

(** ** Row sets and their serialization *)

(** The cell values of a row and the rows of a result, when every cell
    carries a value. *)
Definition cells (row : Row) : option (list string) :=
  mapM VarCharValue (Data row).

Definition row_set (results : GetQueryResultsOutput)
    : option (list (list string)) :=
  mapM cells (Rows (ResultSet results)).

(** The result that carries a given row set. *)
Definition cell_of (value : string) : Datum := {| VarCharValue := Some value |}.

Definition results_of (rows : list (list string)) : GetQueryResultsOutput :=
  {| ResultSet :=
       {| Rows := map (fun values => {| Data := map cell_of values |})
                      rows |} |}.

(** The serialization as the specification words it: every row as its
    values joined by [", "] between brackets, the rows one after the other
    with nothing in between. *)
Definition bracketed (values : list string) : string :=
  "[" +:+ String.concat ", " values +:+ "]".

Fixpoint concatenation (parts : list string) : string :=
  match parts with
  | [] => EmptyString
  | part :: rest => part +:+ concatenation rest
  end.

Definition serialized (rows : list (list string)) : string :=
  concatenation (map bracketed rows).

(** The content of the data document, whatever the result of the fetch:
    the serialization of the rows, [KeyError] when a cell has no value, the
    sentinel when nothing was fetched. *)
Definition data_content (athenaResults : option GetQueryResultsOutput)
    : outcome string :=
  match athenaResults with
  | Some results =>
      match row_set results with
      | Some rows => Returned (serialized rows)
      | None => Raised (KeyError "VarCharValue")
      end
  | None => Returned "NA"
  end.

(** ** Sample collaborators *)

Definition status_of (state : option string) : GetQueryExecutionOutput :=
  {| QueryExecution := Some {| Status := Some {| State := state |} |} |}.

Definition without_execution : GetQueryExecutionOutput :=
  {| QueryExecution := None |}.

Definition sample_rows : list (list string) :=
  [["o1"; "100.0"]; ["o2"; "250.0"]].

Definition scripted_athena
    (start : outcome StartQueryExecutionOutput)
    (script : nat -> outcome GetQueryExecutionOutput) : AthenaClient :=
  {| start_query_execution := fun _ _ _ => start;
     get_query_execution := fun j _ => script j;
     get_query_results := fun _ => Returned (results_of sample_rows) |}.

Definition sample_bedrock : BedrockClient :=
  {| invoke_model := fun _ _ =>
       Returned {| content :=
         [ {| text := "SELECT order_id, order_total FROM orders" |} ] |} |}.

Definition retriever_with (athena : AthenaClient) : AmazonAthenaRetriever :=
  {| database := "orders_db";
     RESULT_OUTPUT_LOCATION := "s3://results/";
     athena_client := athena;
     bedrock_client := Some sample_bedrock;
     model_id := "model" |}.

Definition started : outcome StartQueryExecutionOutput :=
  Returned {| QueryExecutionId := "q-1" |}.

Definition always_running : AmazonAthenaRetriever :=
  retriever_with
    (scripted_athena started (fun _ => Returned (status_of (Some "RUNNING")))).

Definition succeeds_third : AmazonAthenaRetriever :=
  retriever_with
    (scripted_athena started
       (fun j => Returned (status_of (Some (if j <? 2 then "RUNNING"
                                            else "SUCCEEDED"))))).

Definition always_malformed : AmazonAthenaRetriever :=
  retriever_with (scripted_athena started (fun _ => Returned without_execution)).

Definition failing_submission : AmazonAthenaRetriever :=
  retriever_with
    (scripted_athena (Raised (ClientError "connection reset"))
       (fun _ => Returned (status_of (Some "RUNNING")))).

(** The sleeps of twenty iterations, by remaining budget 19, 18, ..., 0. *)
Definition full_schedule : list Q := map sleep_duration (rev (seq 0 20)).

Definition long_sleeps (sleeps : list Q) : nat :=
  length (List.filter (Qeq_bool 3) sleeps).
Definition short_sleeps (sleeps : list Q) : nat :=
  length (List.filter (Qeq_bool (1 # 2)) sleeps).


(** ** Counting the other effects *)

Definition is_invocation (e : event) : bool :=
  match e with InvokeModel _ _ => true | _ => false end.
Definition is_submission (e : event) : bool :=
  match e with StartQueryExecution _ _ _ => true | _ => false end.

Definition invocations_in : list event -> nat := count is_invocation.
Definition submissions_in : list event -> nat := count is_submission.

(** The time slept, in seconds. *)
Definition total_sleep (sleeps : list Q) : Q := fold_right Qplus 0%Q sleeps.

(** The calls that follow the loop when it is left with the given budget:
    the print, and the fetch when [fetch_results] is set. *)
Definition after_loop (executionID : string) (max_execution : nat)
    (fetch_results : bool) : list event :=
  Print max_execution
  :: (if fetch_results then [GetQueryResults executionID] else []).

(** ** The validator [create_client] (lines 70-88) *)

Section Validator.

(** What a configuration value can be, [None] apart. *)
Variable object : Type.

(** [values.get(key)]: the value, or [None] when the key is absent. *)
Definition dict_get (values : gmap string (option object)) (key : string)
    : option object :=
  match values !! key with
  | Some value => value
  | None => None
  end.

Definition credentials_message : string :=
  "Could not load credentials to authenticate with AWS client. "
  +:+ "Please check that credentials in the specified "
  +:+ "profile name are valid.".

(** One [if ... is not None: return values / else: raise ValueError(...)]
    statement.  A statement ends the function with an outcome, or falls
    through ([None]) to the next statement. *)
Definition check_client (key : string) (values : gmap string (option object))
    : option (outcome (option (gmap string (option object)))) :=
  match dict_get values key with
  | Some _ => Some (Returned (Some values))
  | None => Some (Raised (ValueError credentials_message))
  end.

(** The two statements in sequence; a function that falls off its end
    returns [None]. *)
Definition create_client (values : gmap string (option object))
    : outcome (option (gmap string (option object))) :=
  match check_client "athena_client" values with
  | Some result => result
  | None =>
      match check_client "bedrock_client" values with
      | Some result => result
      | None => Returned None
      end
  end.

End Validator.

(** ** More sample collaborators *)

Definition failing_bedrock : BedrockClient :=
  {| invoke_model := fun _ _ => Raised (ClientError "model not ready") |}.

Definition without_bedrock : AmazonAthenaRetriever :=
  {| database := "orders_db";
     RESULT_OUTPUT_LOCATION := "s3://results/";
     athena_client :=
       scripted_athena started (fun _ => Returned (status_of (Some "RUNNING")));
     bedrock_client := None;
     model_id := "model" |}.

Definition with_failing_bedrock : AmazonAthenaRetriever :=
  {| database := "orders_db";
     RESULT_OUTPUT_LOCATION := "s3://results/";
     athena_client :=
       scripted_athena started (fun _ => Returned (status_of (Some "RUNNING")));
     bedrock_client := Some failing_bedrock;
     model_id := "model" |}.

Definition poll_fails_third : AmazonAthenaRetriever :=
  retriever_with
    (scripted_athena started
       (fun j => if j <? 2 then Returned (status_of (Some "RUNNING"))
                 else Raised (ClientError "throttled"))).

Definition fetch_fails : AmazonAthenaRetriever :=
  retriever_with
    {| start_query_execution := fun _ _ _ => started;
       get_query_execution := fun _ _ =>
         Returned (status_of (Some "SUCCEEDED"));
       get_query_results := fun _ => Raised (ClientError "access denied") |}.

Definition fails_at_once : AmazonAthenaRetriever :=
  retriever_with
    (scripted_athena started (fun _ => Returned (status_of (Some "FAILED")))).

(** A result with a NULL cell, and a service that answers with it. *)
Definition null_cell_results : GetQueryResultsOutput :=
  {| ResultSet :=
       {| Rows := [ {| Data := [ {| VarCharValue := Some "o1" |};
                                 {| VarCharValue := None |} ] |} ] |} |}.

Definition returns_null_cell : AmazonAthenaRetriever :=
  retriever_with
    {| start_query_execution := fun _ _ _ => started;
       get_query_execution := fun _ _ =>
         Returned (status_of (Some "SUCCEEDED"));
       get_query_results := fun _ => Returned null_cell_results |}.

(** A service whose second status response lacks the state. *)
Definition malformed_once : AmazonAthenaRetriever :=
  retriever_with
    (scripted_athena started
       (fun j => if j =? 1 then Returned without_execution
                 else if j <? 3 then Returned (status_of (Some "QUEUED"))
                 else Returned (status_of (Some "SUCCEEDED")))).

(** ** Lemmas on logs *)

Lemma count_app p (l1 l2 : list event) :
  count p (l1 ++ l2) = count p l1 + count p l2.
Proof. unfold count. by rewrite List.filter_app, length_app. Qed.

Lemma polls_in_app (l1 l2 : list event) :
  polls_in (l1 ++ l2) = polls_in l1 + polls_in l2.
Proof. apply count_app. Qed.

Lemma fetches_in_app (l1 l2 : list event) :
  fetches_in (l1 ++ l2) = fetches_in l1 + fetches_in l2.
Proof. apply count_app. Qed.

Lemma sleeps_in_app (l1 l2 : list event) :
  sleeps_in (l1 ++ l2) = sleeps_in l1 ++ sleeps_in l2.
Proof.
  induction l1 as [|e l1 IH]; [done|].
  destruct e; simpl; by rewrite ?IH.
Qed.

Lemma polls_in_iterations id n k : polls_in (iterations id n k) = k.
Proof.
  revert n; induction k as [|k IH]; intros n; [done|].
  change (iterations id n (S k)) with
    ([GetQueryExecution id; Sleep (sleep_duration (n - 1))]
       ++ iterations id (n - 1) k).
  rewrite polls_in_app, IH. done.
Qed.

Lemma fetches_in_iterations id n k : fetches_in (iterations id n k) = 0.
Proof.
  revert n; induction k as [|k IH]; intros n; [done|].
  change (iterations id n (S k)) with
    ([GetQueryExecution id; Sleep (sleep_duration (n - 1))]
       ++ iterations id (n - 1) k).
  rewrite fetches_in_app, IH. done.
Qed.

Lemma sleeps_in_iterations id n k :
  sleeps_in (iterations id n k)
  = map (fun i => sleep_duration (n - 1 - i)) (seq 0 k).
Proof.
  revert n; induction k as [|k IH]; intros n; [done|].
  simpl. rewrite IH, Nat.sub_0_r. f_equal.
  rewrite <- seq_shift, map_map. apply map_ext. intros i.
  f_equal. lia.
Qed.

(** Counting the polls and the fetches of a log built by appending. *)
Ltac count_events :=
  rewrite ?polls_in_app, ?fetches_in_app, ?polls_in_iterations,
    ?fetches_in_iterations;
  unfold polls_in, fetches_in, count; simpl; lia.

(** ** Lemmas on the loop *)

Lemma update_state_not_succeeded r state fetch_results :
  ¬ succeeded r ->
  update_state r state fetch_results
  = (default state (reported_state r), fetch_results).
Proof.
  unfold succeeded, update_state. intros Hr.
  destruct (reported_state r) as [s|]; [|done]. simpl.
  destruct (String.eqb_spec s "SUCCEEDED") as [->|_]; [done|done].
Qed.

Lemma update_state_succeeded r state fetch_results :
  succeeded r ->
  update_state r state fetch_results = ("SUCCEEDED", true).
Proof. unfold succeeded, update_state. by intros ->. Qed.

Lemma update_state_missing r state fetch_results :
  reported_state r = None ->
  update_state r state fetch_results = (state, fetch_results).
Proof. unfold update_state. by intros ->. Qed.

Section Loop.

Variable self : AmazonAthenaRetriever.

(** The loop is left at once when [fetch_results] is set. *)
Lemma poll_loop_done id n state log :
  poll_loop self id n state true log = (Returned (n, state, true), log).
Proof. by destruct n. Qed.

Lemma poll_loop_exhausted id state fetch_results log :
  poll_loop self id 0 state fetch_results log
  = (Returned (0, state, fetch_results), log).
Proof. done. Qed.

(** One iteration whose poll returns. *)
Lemma poll_loop_step id n state log r :
  get_query_execution (athena_client self) (polls_in log) id = Returned r ->
  poll_loop self id (S n) state false log
  = poll_loop self id n (update_state r state false).1
      (update_state r state false).2
      (log ++ [GetQueryExecution id; Sleep (sleep_duration n)]).
Proof.
  intros Hr. simpl. unfold bind at 1, call_get_query_execution at 1.
  rewrite Hr. destruct (update_state r state false) as [state' fetch'].
  unfold bind, emit. simpl. by rewrite <- app_assoc.
Qed.

(** One iteration whose poll raises: the exception leaves the loop. *)
Lemma poll_loop_raise id n state log e :
  get_query_execution (athena_client self) (polls_in log) id = Raised e ->
  poll_loop self id (S n) state false log
  = (Raised e, log ++ [GetQueryExecution id]).
Proof.
  intros He. simpl. unfold bind at 1, call_get_query_execution at 1.
  by rewrite He.
Qed.

Lemma polls_in_step (log : list event) id d :
  polls_in (log ++ [GetQueryExecution id; Sleep d]) = S (polls_in log).
Proof. rewrite polls_in_app. unfold polls_in, count. simpl. lia. Qed.

(** [k] iterations none of whose polls reports [SUCCEEDED]. *)
Lemma poll_loop_running id statuses :
  forall n state log,
    length statuses <= n ->
    polled self id (polls_in log) (length statuses) = map Returned statuses ->
    Forall (fun r => ¬ succeeded r) statuses ->
    poll_loop self id n state false log
    = poll_loop self id (n - length statuses) (observed state statuses) false
        (log ++ iterations id n (length statuses)).
Proof.
  induction statuses as [|r statuses IH]; intros n state log Hn Hp Hs.
  - simpl. by rewrite Nat.sub_0_r, app_nil_r.
  - destruct n as [|n]; [simpl in Hn; lia|].
    simpl in Hp. injection Hp as Hr Hp.
    apply Forall_cons in Hs as [Hr' Hs].
    rewrite (poll_loop_step _ _ _ _ _ Hr).
    rewrite (update_state_not_succeeded _ _ _ Hr'). simpl fst. simpl snd.
    rewrite IH; [|simpl in Hn; lia|by rewrite polls_in_step|done].
    simpl. rewrite Nat.sub_0_r, <- app_assoc. done.
Qed.

End Loop.

(** ** Result shaping *)

Lemma append_nil_r (s : string) : s +:+ EmptyString = s.
Proof.
  induction s as [|a s IH]; [done|].
  change (String a s +:+ EmptyString) with (String a (s +:+ EmptyString)). by rewrite IH.
Qed.

Lemma append_assoc (s1 s2 s3 : string) :
  (s1 +:+ s2) +:+ s3 = s1 +:+ (s2 +:+ s3).
Proof.
  induction s1 as [|a s1 IH]; [done|].
  change (String a ((s1 +:+ s2) +:+ s3) = String a (s1 +:+ (s2 +:+ s3))).
  by rewrite IH.
Qed.

Lemma cells_cell_of values :
  cells {| Data := map cell_of values |} = Some values.
Proof.
  unfold cells. simpl.
  induction values as [|value values IH]; [done|]. simpl. by rewrite IH.
Qed.

Lemma row_set_results_of rows : row_set (results_of rows) = Some rows.
Proof.
  unfold row_set, results_of. simpl.
  induction rows as [|values rows IH]; [done|].
  simpl. by rewrite cells_cell_of, IH.
Qed.

(** The results whose cells all carry a value are those of [results_of]. *)
Lemma row_set_Some_inv results rows :
  row_set results = Some rows -> results = results_of rows.
Proof.
  destruct results as [[list_of_rows]]. unfold row_set, results_of. simpl.
  intros Hrows. do 2 f_equal.
  revert rows Hrows.
  induction list_of_rows as [|[data] list_of_rows IH]; intros rows Hrows.
  - by injection Hrows as <-.
  - simpl in Hrows.
    destruct (cells {| Data := data |}) as [values|] eqn:Hcells; [|done].
    destruct (mapM cells list_of_rows) as [rows'|]; [|done].
    injection Hrows as <-. simpl. rewrite <- (IH rows' eq_refl).
    do 2 f_equal. clear IH. unfold cells in Hcells. simpl in Hcells.
    revert values Hcells.
    induction data as [|[[value|]] data IH]; intros values Hcells;
      [by injection Hcells as <-| |done].
    simpl in Hcells. destruct (mapM VarCharValue data) as [values'|]; [|done].
    injection Hcells as <-. simpl. by rewrite <- (IH values' eq_refl).
Qed.

Lemma row_values_spec data :
  row_values data
  = match mapM VarCharValue data with
    | Some values => Returned values
    | None => Raised (KeyError "VarCharValue")
    end.
Proof.
  induction data as [|[[value|]] data IH]; [done| |done].
  simpl. rewrite IH. by destruct (mapM VarCharValue data).
Qed.

Lemma format_row_spec row :
  format_row row
  = match cells row with
    | Some values => Returned (bracketed values)
    | None => Raised (KeyError "VarCharValue")
    end.
Proof.
  unfold format_row, cells. rewrite row_values_spec.
  by destruct (mapM VarCharValue (Data row)).
Qed.

Lemma rows_loop_spec (list_of_rows : list Row) :
  forall n ind value_str,
    ind + n = length list_of_rows ->
    rows_loop (seq ind n) list_of_rows value_str
    = match mapM cells (drop ind list_of_rows) with
      | Some rows => Returned (value_str +:+ serialized rows)
      | None => Raised (KeyError "VarCharValue")
      end.
Proof.
  induction n as [|n IH]; intros ind value_str Hlen.
  - simpl. rewrite drop_ge by lia. simpl. by rewrite append_nil_r.
  - destruct (lookup_lt_is_Some_2 list_of_rows ind) as [row Hrow]; [lia|].
    simpl. rewrite Hrow, format_row_spec, (drop_S _ _ _ Hrow). simpl.
    destruct (cells row) as [values|]; [|done]. simpl.
    rewrite IH by lia.
    destruct (mapM cells (drop (S ind) list_of_rows)) as [rows|]; [|done].
    simpl. unfold serialized. simpl. by rewrite append_assoc.
Qed.

Lemma data_document_some results :
  data_document (Some results)
  = match row_set results with
    | Some rows =>
        Returned {| page_content := serialized rows; metadata := ∅ |}
    | None => Raised (KeyError "VarCharValue")
    end.
Proof.
  unfold data_document. rewrite rows_loop_spec by done.
  rewrite drop_0. unfold row_set.
  by destruct (mapM cells (Rows (ResultSet results))).
Qed.

Lemma data_document_results_of rows :
  data_document (Some (results_of rows))
  = Returned {| page_content := serialized rows; metadata := ∅ |}.
Proof. by rewrite data_document_some, row_set_results_of. Qed.

Lemma process_documents_some executionID SQLQuery state results :
  process_documents executionID SQLQuery state (Some results)
  = match row_set results with
    | Some rows =>
        Returned [ {| page_content := serialized rows; metadata := ∅ |};
                   metadata_document executionID SQLQuery state ]
    | None => Raised (KeyError "VarCharValue")
    end.
Proof.
  unfold process_documents. rewrite data_document_some.
  by destruct (row_set results).
Qed.

Lemma process_documents_none executionID SQLQuery state :
  process_documents executionID SQLQuery state None
  = Returned [ {| page_content := "NA"; metadata := ∅ |};
               metadata_document executionID SQLQuery state ].
Proof. done. Qed.

Lemma process_documents_spec executionID SQLQuery state athenaResults :
  process_documents executionID SQLQuery state athenaResults
  = match data_content athenaResults with
    | Returned value_str =>
        Returned [ {| page_content := value_str; metadata := ∅ |};
                   metadata_document executionID SQLQuery state ]
    | Raised e => Raised e
    end.
Proof.
  destruct athenaResults as [results|]; [|done].
  rewrite process_documents_some. simpl. by destruct (row_set results).
Qed.

Lemma serialized_not_sentinel rows : serialized rows <> "NA".
Proof. by destruct rows. Qed.

Lemma data_content_sentinel athenaResults :
  data_content athenaResults = Returned "NA" <-> athenaResults = None.
Proof.
  destruct athenaResults as [results|]; simpl; [|done].
  split; [|done]. destruct (row_set results) as [rows|]; [|done].
  intros [= Hna]. by apply serialized_not_sentinel in Hna.
Qed.

(** ** The whole execution *)

Section Execution.

Variable self : AmazonAthenaRetriever.

Local Arguments poll_loop : simpl never.

Lemma polls_in_submission log SQLQuery :
  polls_in (log ++ [submission self SQLQuery]) = polls_in log.
Proof. rewrite polls_in_app. unfold polls_in, count. simpl. lia. Qed.

(** The submission raises: nothing else happens. *)
Lemma execute_query_submit_raises SQLQuery log e :
  submit self SQLQuery = Raised e ->
  execute_query self SQLQuery log = (Raised e, log ++ [submission self SQLQuery]).
Proof.
  unfold submit, execute_query, call_start_query_execution, bind, emit, lift.
  by intros ->.
Qed.

(** The loop raises: the exception leaves the call. *)
Lemma execute_query_loop_raises SQLQuery log response e log2 :
  submit self SQLQuery = Returned response ->
  poll_loop self (QueryExecutionId response) 20 "RUNNING" false
            (log ++ [submission self SQLQuery]) = (Raised e, log2) ->
  execute_query self SQLQuery log = (Raised e, log2).
Proof.
  unfold submit, submission.
  unfold execute_query, call_start_query_execution, bind, emit, lift.
  by intros -> ->.
Qed.

(** The loop is left: the budget is printed and the results are fetched when
    [fetch_results] is set. *)
Lemma execute_query_after_loop SQLQuery log response n state fetch log2 :
  submit self SQLQuery = Returned response ->
  poll_loop self (QueryExecutionId response) 20 "RUNNING" false
            (log ++ [submission self SQLQuery])
  = (Returned (n, state, fetch), log2) ->
  execute_query self SQLQuery log
  = if fetch then
      (match get_query_results (athena_client self)
                               (QueryExecutionId response) with
       | Returned results =>
           Returned (QueryExecutionId response, state, Some results)
       | Raised e => Raised e
       end,
       log2 ++ [Print n; GetQueryResults (QueryExecutionId response)])
    else
      (Returned (QueryExecutionId response, state, None), log2 ++ [Print n]).
Proof.
  unfold submit, submission.
  unfold execute_query, call_start_query_execution, bind, emit, lift.
  intros -> ->. destruct fetch; [|done].
  unfold call_get_query_results, bind, emit, lift. rewrite <- app_assoc.
  by destruct (get_query_results _ _).
Qed.

(** Whatever the client answers, a loop entered with budget [n] makes at
    most [n] polls and no fetch. *)
Lemma poll_loop_bound id :
  forall n state fetch log,
    polls_in (poll_loop self id n state fetch log).2 <= polls_in log + n
    /\ fetches_in (poll_loop self id n state fetch log).2 = fetches_in log.
Proof.
  induction n as [|n IH]; intros state fetch log.
  - simpl. split; [lia|done].
  - destruct fetch; [rewrite poll_loop_done; simpl; split; [lia|done]|].
    destruct (get_query_execution (athena_client self) (polls_in log) id)
      as [r|e] eqn:Hr.
    + rewrite (poll_loop_step _ _ _ _ _ _ Hr).
      destruct (IH (update_state r state false).1
                   (update_state r state false).2
                   (log ++ [GetQueryExecution id; Sleep (sleep_duration n)]))
        as [Hp Hf].
      rewrite polls_in_step in Hp. split; [lia|].
      rewrite Hf, fetches_in_app. unfold fetches_in, count. simpl. lia.
    + rewrite (poll_loop_raise _ _ _ _ _ _ Hr). simpl.
      rewrite polls_in_app, fetches_in_app.
      unfold polls_in, fetches_in, count. simpl. lia.
Qed.

Lemma execute_query_bound SQLQuery log :
  polls_in (execute_query self SQLQuery log).2 <= polls_in log + 20
  /\ fetches_in (execute_query self SQLQuery log).2 <= fetches_in log + 1.
Proof.
  destruct (submit self SQLQuery) as [response|e] eqn:Hs.
  - destruct (poll_loop_bound (QueryExecutionId response) 20 "RUNNING" false
                              (log ++ [submission self SQLQuery])) as [Hp Hf].
    destruct (poll_loop self (QueryExecutionId response) 20 "RUNNING" false
                (log ++ [submission self SQLQuery])) as [[[[n state] fetch]|e] log2]
      eqn:Hl; cbn [snd] in Hp, Hf;
      rewrite polls_in_submission in Hp; rewrite fetches_in_app in Hf;
      unfold fetches_in at 3, count in Hf; cbn in Hf.
    + rewrite (execute_query_after_loop _ _ _ _ _ _ _ Hs Hl).
      destruct fetch; simpl; rewrite polls_in_app, fetches_in_app;
        unfold polls_in at 2, fetches_in at 2, count; simpl; lia.
    + rewrite (execute_query_loop_raises _ _ _ _ _ Hs Hl). simpl. lia.
  - rewrite (execute_query_submit_raises _ _ _ Hs). simpl.
    rewrite polls_in_app, fetches_in_app.
    unfold polls_in at 2, fetches_in at 2, count. simpl. lia.
Qed.

End Execution.

(** ** The two ways out of the loop *)

Section Outcomes.

Variable self : AmazonAthenaRetriever.

Local Arguments poll_loop : simpl never.

Lemma length_polled id first k : length (polled self id first k) = k.
Proof. revert first; induction k as [|k IH]; intros first; simpl; auto. Qed.

Lemma polled_snoc id first k :
  polled self id first (S k)
  = polled self id first k
    ++ [get_query_execution (athena_client self) (first + k) id].
Proof.
  revert first; induction k as [|k IH]; intros first.
  - simpl. by rewrite Nat.add_0_r.
  - change (polled self id first (S (S k))) with
      (get_query_execution (athena_client self) first id
       :: polled self id (S first) (S k)).
    rewrite IH. simpl. by rewrite Nat.add_succ_r.
Qed.

Lemma iterations_snoc id n k :
  iterations id n (S k)
  = iterations id n k
    ++ [GetQueryExecution id; Sleep (sleep_duration (n - 1 - k))].
Proof.
  revert n; induction k as [|k IH]; intros n.
  - simpl. by rewrite Nat.sub_0_r.
  - change (iterations id n (S (S k))) with
      (GetQueryExecution id :: Sleep (sleep_duration (n - 1))
       :: iterations id (n - 1) (S k)).
    rewrite IH. simpl.
    by replace (n - 1 - 1 - k) with (n - 1 - S k) by lia.
Qed.

Lemma observed_not_succeeded state statuses :
  state <> "SUCCEEDED" ->
  Forall (fun r => ¬ succeeded r) statuses ->
  observed state statuses <> "SUCCEEDED".
Proof.
  revert state; induction statuses as [|r statuses IH]; intros state Hs Hall.
  - done.
  - apply Forall_cons in Hall as [Hr Hall]. apply IH; [|done].
    unfold succeeded in Hr. destruct (reported_state r); simpl; congruence.
Qed.

Lemma observed_missing state statuses :
  Forall (fun r => reported_state r = None) statuses ->
  observed state statuses = state.
Proof.
  revert state; induction statuses as [|r statuses IH]; intros state Hall.
  - done.
  - apply Forall_cons in Hall as [Hr Hall].
    unfold observed in *. simpl. rewrite Hr. simpl. by apply IH.
Qed.

(** Twenty polls, none of which reports [SUCCEEDED]. *)
Lemma execute_query_exhausted SQLQuery log response statuses :
  submit self SQLQuery = Returned response ->
  polled self (QueryExecutionId response) (polls_in log) 20
  = map Returned statuses ->
  Forall (fun r => ¬ succeeded r) statuses ->
  execute_query self SQLQuery log
  = (Returned (QueryExecutionId response, observed "RUNNING" statuses, None),
     log ++ [submission self SQLQuery]
         ++ iterations (QueryExecutionId response) 20 20 ++ [Print 0]).
Proof.
  intros Hs Hp Hall.
  assert (length statuses = 20) as Hlen.
  { rewrite <- (length_map Returned statuses), <- Hp. apply length_polled. }
  rewrite (execute_query_after_loop self SQLQuery log response 0
             (observed "RUNNING" statuses) false
             ((log ++ [submission self SQLQuery])
                ++ iterations (QueryExecutionId response) 20 20) Hs).
  - by rewrite <- !app_assoc.
  - rewrite (poll_loop_running self _ statuses);
      rewrite ?Hlen, ?polls_in_submission; [done|lia|done|done].
Qed.

(** The poll after [before] is the first to report [SUCCEEDED]. *)
Lemma execute_query_succeeds SQLQuery log response before r :
  submit self SQLQuery = Returned response ->
  length before < 20 ->
  polled self (QueryExecutionId response) (polls_in log) (S (length before))
  = map Returned (before ++ [r]) ->
  Forall (fun r => ¬ succeeded r) before ->
  succeeded r ->
  execute_query self SQLQuery log
  = (match get_query_results (athena_client self)
                             (QueryExecutionId response) with
     | Returned results =>
         Returned (QueryExecutionId response, "SUCCEEDED", Some results)
     | Raised e => Raised e
     end,
     log ++ [submission self SQLQuery]
         ++ iterations (QueryExecutionId response) 20 (S (length before))
         ++ [Print (20 - S (length before));
             GetQueryResults (QueryExecutionId response)]).
Proof.
  intros Hs Hlen Hp Hall Hr.
  set (id := QueryExecutionId response) in *.
  rewrite polled_snoc, map_app in Hp. simpl in Hp.
  apply app_inj_2 in Hp as [Hp Hlast]; [|done].
  injection Hlast as Hlast.
  rewrite (execute_query_after_loop self SQLQuery log response
             (20 - S (length before)) "SUCCEEDED" true
             ((log ++ [submission self SQLQuery])
                ++ iterations id 20 (S (length before))) Hs).
  - by rewrite <- !app_assoc.
  - fold id.
    rewrite (poll_loop_running self id before);
      rewrite ?polls_in_submission; [|lia|done|done].
    replace (20 - length before) with (S (20 - S (length before))) by lia.
    rewrite (poll_loop_step self id _ _ _ r).
    + rewrite (update_state_succeeded _ _ _ Hr). simpl fst. simpl snd.
      rewrite poll_loop_done, iterations_snoc, <- !app_assoc.
      by replace (20 - 1 - length before) with (20 - S (length before))
        by lia.
    + rewrite polls_in_app, polls_in_submission, polls_in_iterations.
      done.
Qed.

End Outcomes.

(** ** What a call that returns went through *)

Section Inversion.

Variable self : AmazonAthenaRetriever.

Local Arguments poll_loop : simpl never.

Lemma update_state_fst r state fetch :
  (update_state r state fetch).1 = default state (reported_state r).
Proof.
  unfold update_state. destruct (reported_state r) as [s|]; [|done].
  by destruct (String.eqb s "SUCCEEDED").
Qed.

Lemma poll_loop_returns_inv id :
  forall n state fetch log n' state' fetch' log',
    poll_loop self id n state fetch log = (Returned (n', state', fetch'), log')
    -> exists statuses,
      length statuses <= n
      /\ polled self id (polls_in log) (length statuses)
         = map Returned statuses
      /\ log' = log ++ iterations id n (length statuses)
      /\ n' = n - length statuses
      /\ state' = observed state statuses.
Proof.
  induction n as [|n IH]; intros state fetch log n' state' fetch' log' Hrun.
  - rewrite poll_loop_exhausted in Hrun. injection Hrun as <- <- <- <-.
    exists []. simpl. by rewrite app_nil_r.
  - destruct fetch.
    { rewrite poll_loop_done in Hrun. injection Hrun as <- <- <- <-.
      exists []. simpl. rewrite app_nil_r. repeat split; lia. }
    destruct (get_query_execution (athena_client self) (polls_in log) id)
      as [r|e] eqn:Hr.
    + rewrite (poll_loop_step _ _ _ _ _ _ Hr) in Hrun.
      apply IH in Hrun as (statuses & Hlen & Hp & -> & -> & ->).
      rewrite polls_in_step in Hp. rewrite update_state_fst.
      exists (r :: statuses). simpl. rewrite Hr, Hp, Nat.sub_0_r.
      rewrite <- app_assoc. repeat split; try done; lia.
    + by rewrite (poll_loop_raise _ _ _ _ _ _ Hr) in Hrun.
Qed.

Lemma execute_query_returns_inv SQLQuery log id state athenaResults log' :
  execute_query self SQLQuery log
  = (Returned (id, state, athenaResults), log') ->
  exists response statuses,
    submit self SQLQuery = Returned response
    /\ id = QueryExecutionId response
    /\ length statuses <= 20
    /\ polled self id (polls_in log) (length statuses) = map Returned statuses
    /\ state = observed "RUNNING" statuses
    /\ polls_in log' = polls_in log + length statuses.
Proof.
  intros Hrun.
  destruct (submit self SQLQuery) as [response|e] eqn:Hs;
    [|by rewrite (execute_query_submit_raises _ _ _ _ Hs) in Hrun].
  destruct (poll_loop self (QueryExecutionId response) 20 "RUNNING" false
              (log ++ [submission self SQLQuery]))
    as [[[[n st] fetch]|e] log2] eqn:Hl;
    [|by rewrite (execute_query_loop_raises _ _ _ _ _ _ Hs Hl) in Hrun].
  rewrite (execute_query_after_loop _ _ _ _ _ _ _ _ Hs Hl) in Hrun.
  apply poll_loop_returns_inv in Hl as (statuses & Hlen & Hp & -> & -> & ->).
  rewrite polls_in_submission in Hp.
  exists response, statuses.
  assert (polls_in ((log ++ [submission self SQLQuery])
                      ++ iterations (QueryExecutionId response) 20
                           (length statuses))
          = polls_in log + length statuses) as Hcount.
  { by rewrite polls_in_app, polls_in_submission, polls_in_iterations. }
  destruct fetch.
  - destruct (get_query_results _ _); [|done].
    injection Hrun as <- <- <- <-. repeat split; [done..|].
    rewrite polls_in_app, Hcount. unfold polls_in at 2, count. simpl. lia.
  - injection Hrun as <- <- <- <-. repeat split; [done..|].
    rewrite polls_in_app, Hcount. unfold polls_in at 2, count. simpl. lia.
Qed.

(** The generation of the query makes no poll. *)
Lemma generate_sql_query_polls query log o log1 :
  generate_sql_query self query log = (o, log1) ->
  polls_in log1 = polls_in log.
Proof.
  unfold generate_sql_query, sql_generator, bind, emit, lift, raise, ret.
  destruct (bedrock_client self) as [client|]; [|by intros [= <- <-]].
  assert (polls_in (log ++ [InvokeModel (model_id self) query])
          = polls_in log) as Hp.
  { rewrite polls_in_app. unfold polls_in at 2, count. simpl. lia. }
  destruct (invoke_model client query (model_id self)) as [body|e];
    [destruct (content body)|]; by intros [= <- <-].
Qed.

(** The call, once the query is generated. *)
Lemma get_relevant_documents_generated query log SQLQuery log1 :
  generate_sql_query self query log = (Returned SQLQuery, log1) ->
  _get_relevant_documents self query log
  = match execute_query self SQLQuery log1 with
    | (Returned (executionID, state, athenaResults), log2) =>
        (match data_content athenaResults with
         | Returned value_str =>
             Returned [ {| page_content := value_str; metadata := ∅ |};
                        metadata_document executionID SQLQuery state ]
         | Raised e => Raised e
         end, log2)
    | (Raised e, log2) => (Raised e, log2)
    end.
Proof.
  intros Hg. unfold _get_relevant_documents, bind at 1. rewrite Hg.
  unfold bind, lift.
  destruct (execute_query self SQLQuery log1)
    as [[[[id state] results]|e] log2]; [|done].
  by rewrite process_documents_spec.
Qed.

Lemma get_relevant_documents_returns_inv query log docs log' :
  _get_relevant_documents self query log = (Returned docs, log') ->
  exists SQLQuery log1 executionID state athenaResults value_str,
    generate_sql_query self query log = (Returned SQLQuery, log1)
    /\ execute_query self SQLQuery log1
       = (Returned (executionID, state, athenaResults), log')
    /\ data_content athenaResults = Returned value_str
    /\ docs = [ {| page_content := value_str; metadata := ∅ |};
                metadata_document executionID SQLQuery state ].
Proof.
  intros Hrun.
  destruct (generate_sql_query self query log) as [[SQLQuery|e] log1] eqn:Hg.
  - rewrite (get_relevant_documents_generated _ _ _ _ Hg) in Hrun.
    destruct (execute_query self SQLQuery log1)
      as [[[[id state] results]|e] log2] eqn:He; [|done].
    destruct (data_content results) as [value_str|e] eqn:Hc; [|done].
    injection Hrun as <- <-.
    by exists SQLQuery, log1, id, state, results, value_str.
  - unfold _get_relevant_documents, bind at 1 in Hrun.
    by rewrite Hg in Hrun.
Qed.

End Inversion.

Lemma generate_sql_query_log self query log o log1 :
  generate_sql_query self query log = (o, log1) ->
  log1 = log \/ log1 = log ++ [InvokeModel (model_id self) query].
Proof.
  unfold generate_sql_query, sql_generator, bind, emit, lift, raise, ret.
  destruct (bedrock_client self) as [client|]; [|intros [= <- <-]; by left].
  destruct (invoke_model client query (model_id self)) as [body|e];
    [destruct (content body)|]; intros [= <- <-]; by right.
Qed.

Lemma generate_sql_query_fetches self query log o log1 :
  generate_sql_query self query log = (o, log1) ->
  fetches_in log1 = fetches_in log.
Proof.
  intros Hg. apply generate_sql_query_log in Hg as [->| ->]; [done|].
  count_events.
Qed.

Lemma metadata_document_dom executionID SQLQuery state :
  dom (metadata (metadata_document executionID SQLQuery state))
  = ({[ "executionID"; "sqlQuery"; "queryState" ]} : gset string).
Proof.
  unfold metadata_document. simpl.
  rewrite !dom_insert_L, dom_empty_L. set_solver.
Qed.

(** * Properties of the retrieval call *)

(** A call that reaches result shaping returns two documents, the data
    document first and the metadata document second, unless a fetched cell
    has no value: then it raises [KeyError]. *)
Lemma two_documents_or_key_error
    self query log SQLQuery log1 executionID state athenaResults log2 :
  generate_sql_query self query log = (Returned SQLQuery, log1) ->
  execute_query self SQLQuery log1
  = (Returned (executionID, state, athenaResults), log2) ->
  match data_content athenaResults with
  | Returned value_str =>
      _get_relevant_documents self query log
      = (Returned [ {| page_content := value_str; metadata := ∅ |};
                    metadata_document executionID SQLQuery state ], log2)
  | Raised e =>
      e = KeyError "VarCharValue"
      /\ _get_relevant_documents self query log = (Raised e, log2)
  end.
Proof.
  intros Hg He.
  rewrite (get_relevant_documents_generated _ _ _ _ _ Hg), He.
  destruct athenaResults as [results|]; [|done]. simpl.
  by destruct (row_set results).
Qed.

(** C1.  Reaching result shaping is not enough for two documents.  With a
    query that succeeded on the first poll and a fetched row whose second
    cell is NULL (no [VarCharValue]), the generation, the submission, the
    poll and the fetch all return, and the shaping of line 265 raises
    [KeyError]: the call returns no document. *)
Theorem null_cell_leaves_no_documents :
  exists log1 log2,
    generate_sql_query returns_null_cell "total per order" []
    = (Returned "SELECT order_id, order_total FROM orders", log1)
    /\ execute_query returns_null_cell
         "SELECT order_id, order_total FROM orders" log1
       = (Returned ("q-1", "SUCCEEDED", Some null_cell_results), log2)
    /\ fetches_in log2 = 1
    /\ _get_relevant_documents returns_null_cell "total per order" []
       = (Raised (KeyError "VarCharValue"), log2).
Proof.
  eexists _, _. split; [vm_compute; reflexivity|].
  split; [vm_compute; reflexivity|]. split; vm_compute; reflexivity.
Qed.

(** C2.  The budget is 20: no execution makes more than 20 status polls.
    When the submission returns and none of the 20 status responses reports
    [SUCCEEDED], exactly 20 polls are made, the loop is left with budget 0,
    nothing is fetched and the row set is null ([None]). *)
Theorem budget_of_twenty_polls self SQLQuery log :
  polls_in (execute_query self SQLQuery log).2 <= polls_in log + 20
  /\ forall response statuses,
      submit self SQLQuery = Returned response ->
      polled self (QueryExecutionId response) (polls_in log) 20
      = map Returned statuses ->
      Forall (fun r => ¬ succeeded r) statuses ->
      exists state log',
        execute_query self SQLQuery log
        = (Returned (QueryExecutionId response, state, None), log')
        /\ log' = log ++ [submission self SQLQuery]
                      ++ iterations (QueryExecutionId response) 20 20
                      ++ [Print 0]
        /\ polls_in log' = polls_in log + 20
        /\ fetches_in log' = fetches_in log.
Proof.
  split; [apply execute_query_bound|].
  intros response statuses Hs Hp Hall. eexists _, _.
  split; [by apply execute_query_exhausted|].
  split; [done|]. split; count_events.
Qed.

Lemma budget_of_twenty_polls_witness :
  exists state log',
    execute_query always_running "SELECT 1" []
    = (Returned ("q-1", state, None), log')
    /\ log' = [] ++ [submission always_running "SELECT 1"]
                 ++ iterations "q-1" 20 20 ++ [Print 0]
    /\ polls_in log' = polls_in [] + 20
    /\ fetches_in log' = fetches_in [].
Proof.
  apply (proj2 (budget_of_twenty_polls always_running "SELECT 1" [])
           {| QueryExecutionId := "q-1" |}
           (replicate 20 (status_of (Some "RUNNING")))).
  - reflexivity.
  - reflexivity.
  - apply Forall_replicate. unfold succeeded. simpl. discriminate.
Defined.

(** C3.  When the submission returns and the [k]-th status response
    ([k = S (length before)], [1 <= k <= 20]) is the first to report
    [SUCCEEDED], exactly [k] polls are made and then exactly one
    fetch-results call, whose outcome is the outcome of the execution. *)
Theorem success_on_kth_poll self SQLQuery log response before r :
  submit self SQLQuery = Returned response ->
  length before < 20 ->
  polled self (QueryExecutionId response) (polls_in log) (S (length before))
  = map Returned (before ++ [r]) ->
  Forall (fun r => ¬ succeeded r) before ->
  succeeded r ->
  exists log',
    execute_query self SQLQuery log
    = (match get_query_results (athena_client self)
                               (QueryExecutionId response) with
       | Returned results =>
           Returned (QueryExecutionId response, "SUCCEEDED", Some results)
       | Raised e => Raised e
       end, log')
    /\ log' = log ++ [submission self SQLQuery]
                  ++ iterations (QueryExecutionId response) 20
                       (S (length before))
                  ++ [Print (20 - S (length before));
                      GetQueryResults (QueryExecutionId response)]
    /\ polls_in log' = polls_in log + S (length before)
    /\ fetches_in log' = fetches_in log + 1.
Proof.
  intros Hs Hlen Hp Hall Hr. eexists.
  split; [by apply (execute_query_succeeds self SQLQuery log response
                      before r)|].
  split; [done|]. split; count_events.
Qed.

Lemma success_on_kth_poll_witness :
  exists log',
    execute_query succeeds_third "SELECT 1" []
    = (Returned ("q-1", "SUCCEEDED", Some (results_of sample_rows)), log')
    /\ log' = [] ++ [submission succeeds_third "SELECT 1"]
                 ++ iterations "q-1" 20 3
                 ++ [Print 17; GetQueryResults "q-1"]
    /\ polls_in log' = polls_in [] + 3
    /\ fetches_in log' = fetches_in [] + 1.
Proof.
  apply (success_on_kth_poll succeeds_third "SELECT 1" []
           {| QueryExecutionId := "q-1" |}
           [status_of (Some "RUNNING"); status_of (Some "RUNNING")]
           (status_of (Some "SUCCEEDED"))).
  - reflexivity.
  - simpl. lia.
  - reflexivity.
  - repeat constructor; unfold succeeded; simpl; discriminate.
  - reflexivity.
Defined.

(** C4.  In every iteration entered with budget [S n] whose poll returns,
    whatever the retriever and the response, the poll is followed by one
    sleep, of 3 seconds when the decremented budget [n] is a multiple of 5
    and of half a second otherwise.  Over a run of 20 iterations that never
    sees [SUCCEEDED] the sleeps are those of the remaining budgets 19, ..., 0:
    4 long ones, at 15, 10, 5 and 0, and 16 short ones. *)
Theorem sleep_schedule self :
  (forall id n state log0 r0,
      get_query_execution (athena_client self) (polls_in log0) id
      = Returned r0 ->
      poll_loop self id (S n) state false log0
      = poll_loop self id n (update_state r0 state false).1
          (update_state r0 state false).2
          (log0 ++ [GetQueryExecution id;
                    Sleep (if n mod 5 =? 0 then 3 else 1 # 2)%Q]))
  /\ (forall SQLQuery log response statuses,
        submit self SQLQuery = Returned response ->
        polled self (QueryExecutionId response) (polls_in log) 20
        = map Returned statuses ->
        Forall (fun r => ¬ succeeded r) statuses ->
        sleeps_in (execute_query self SQLQuery log).2
        = sleeps_in log ++ full_schedule)
  /\ full_schedule
     = [(1#2); (1#2); (1#2); (1#2); 3; (1#2); (1#2); (1#2); (1#2); 3;
        (1#2); (1#2); (1#2); (1#2); 3; (1#2); (1#2); (1#2); (1#2); 3]%Q
  /\ long_sleeps full_schedule = 4
  /\ short_sleeps full_schedule = 16
  /\ forall budget, budget < 20 ->
       (sleep_duration budget = 3%Q <-> budget ∈ [15; 10; 5; 0]).
Proof.
  split; [|split; [|split; [|split; [|split]]]].
  - intros id n state log0 r0 Hr0.
    apply (poll_loop_step self id n state log0 r0 Hr0).
  - intros SQLQuery log response statuses Hs Hp Hall.
    rewrite (execute_query_exhausted self _ _ _ _ Hs Hp Hall). cbn [snd].
    rewrite sleeps_in_app. f_equal.
  - reflexivity.
  - reflexivity.
  - reflexivity.
  - intros budget Hb.
    do 20 (destruct budget as [|budget];
           [vm_compute; split; [try discriminate|]; intros Hin;
            repeat (apply elem_of_cons in Hin as [Hin|Hin];
                    [try discriminate Hin; try reflexivity|]);
            try (by apply elem_of_nil in Hin); try set_solver|]).
    lia.
Qed.

Lemma sleep_schedule_witness :
  poll_loop succeeds_third "q-1" 16 "RUNNING" false
    [GetQueryExecution "q-1"; Sleep (1 # 2)]
  = poll_loop succeeds_third "q-1" 15 "RUNNING" false
      ([GetQueryExecution "q-1"; Sleep (1 # 2)]
         ++ [GetQueryExecution "q-1"; Sleep 3])
  /\ poll_loop succeeds_third "q-1" 15 "RUNNING" false
       [GetQueryExecution "q-1"; Sleep (1 # 2);
        GetQueryExecution "q-1"; Sleep 3]
     = poll_loop succeeds_third "q-1" 14 "SUCCEEDED" true
         ([GetQueryExecution "q-1"; Sleep (1 # 2);
           GetQueryExecution "q-1"; Sleep 3]
            ++ [GetQueryExecution "q-1"; Sleep (1 # 2)])
  /\ sleeps_in (execute_query always_running "SELECT 1" []).2
     = sleeps_in [] ++ full_schedule.
Proof.
  split; [|split].
  - apply (proj1 (sleep_schedule succeeds_third) "q-1" 15 "RUNNING"
             [GetQueryExecution "q-1"; Sleep (1 # 2)]
             (status_of (Some "RUNNING"))).
    reflexivity.
  - apply (proj1 (sleep_schedule succeeds_third) "q-1" 14 "RUNNING"
             [GetQueryExecution "q-1"; Sleep (1 # 2);
              GetQueryExecution "q-1"; Sleep 3]
             (status_of (Some "SUCCEEDED"))).
    reflexivity.
  - apply (proj1 (proj2 (sleep_schedule always_running)) "SELECT 1" []
             {| QueryExecutionId := "q-1" |}
             (replicate 20 (status_of (Some "RUNNING")))).
    + reflexivity.
    + reflexivity.
    + apply Forall_replicate. unfold succeeded. simpl. discriminate.
Defined.

(** C5.  For a non-null row set the content of the data document is the
    concatenation, in row order and without separator, of the rows, each
    written as its cell values joined by [", "] between square brackets.
    A fetched result has a row set exactly when every cell carries a value
    (otherwise the shaping raises [KeyError]); every row set of string cells
    is the row set of one result, and the rows [[o1, 100.0], [o2, 250.0]]
    give ["[o1, 100.0][o2, 250.0]"]. *)
Theorem data_document_serializes_rows :
  (forall executionID SQLQuery state results,
      process_documents executionID SQLQuery state (Some results)
      = match row_set results with
        | Some rows =>
            Returned [ {| page_content := concatenation (map bracketed rows);
                          metadata := ∅ |};
                       metadata_document executionID SQLQuery state ]
        | None => Raised (KeyError "VarCharValue")
        end)
  /\ (forall rows, row_set (results_of rows) = Some rows)
  /\ (forall executionID SQLQuery state rows,
        process_documents executionID SQLQuery state (Some (results_of rows))
        = Returned [ {| page_content := concatenation (map bracketed rows);
                        metadata := ∅ |};
                     metadata_document executionID SQLQuery state ])
  /\ (forall executionID SQLQuery state,
        process_documents executionID SQLQuery state
          (Some (results_of [["o1"; "100.0"]; ["o2"; "250.0"]]))
        = Returned [ {| page_content := "[o1, 100.0][o2, 250.0]";
                        metadata := ∅ |};
                     metadata_document executionID SQLQuery state ]).
Proof.
  split; [|split; [|split]].
  - intros. apply process_documents_some.
  - apply row_set_results_of.
  - intros. by rewrite process_documents_some, row_set_results_of.
  - intros. vm_compute. reflexivity.
Qed.

(** C6.  Budget exhaustion is not an exception.  When the query is generated,
    the submission returns and none of the 20 status responses reports
    [SUCCEEDED], the call returns: the row set is null, nothing is fetched,
    the data document is ["NA"], and the reported state is the last one
    observed (initially [RUNNING]), which is not [SUCCEEDED]. *)
Theorem budget_exhaustion_is_normal
    self query log SQLQuery log1 response statuses :
  generate_sql_query self query log = (Returned SQLQuery, log1) ->
  submit self SQLQuery = Returned response ->
  polled self (QueryExecutionId response) (polls_in log) 20
  = map Returned statuses ->
  Forall (fun r => ¬ succeeded r) statuses ->
  exists log',
    execute_query self SQLQuery log1
    = (Returned (QueryExecutionId response, observed "RUNNING" statuses,
                 None), log')
    /\ _get_relevant_documents self query log
       = (Returned [ {| page_content := "NA"; metadata := ∅ |};
                     metadata_document (QueryExecutionId response) SQLQuery
                       (observed "RUNNING" statuses) ], log')
    /\ observed "RUNNING" statuses <> "SUCCEEDED"
    /\ fetches_in log' = fetches_in log.
Proof.
  intros Hg Hs Hp Hall.
  rewrite <- (generate_sql_query_polls _ _ _ _ _ Hg) in Hp.
  pose proof (execute_query_exhausted self _ _ _ _ Hs Hp Hall) as He.
  eexists. split; [exact He|].
  split; [by rewrite (get_relevant_documents_generated _ _ _ _ _ Hg), He|].
  split; [by apply observed_not_succeeded|].
  rewrite <- (generate_sql_query_fetches _ _ _ _ _ Hg). count_events.
Qed.

Lemma budget_exhaustion_is_normal_witness :
  exists log',
    execute_query always_running "SELECT order_id, order_total FROM orders"
      [InvokeModel "model" "total per order"]
    = (Returned ("q-1", "RUNNING", None), log')
    /\ _get_relevant_documents always_running "total per order" []
       = (Returned [ {| page_content := "NA"; metadata := ∅ |};
                     metadata_document "q-1"
                       "SELECT order_id, order_total FROM orders"
                       "RUNNING" ], log')
    /\ "RUNNING" <> "SUCCEEDED"
    /\ fetches_in log' = fetches_in [].
Proof.
  apply (budget_exhaustion_is_normal always_running "total per order" []
           "SELECT order_id, order_total FROM orders"
           [InvokeModel "model" "total per order"]
           {| QueryExecutionId := "q-1" |}
           (replicate 20 (status_of (Some "RUNNING")))).
  - reflexivity.
  - reflexivity.
  - reflexivity.
  - apply Forall_replicate. unfold succeeded. simpl. discriminate.
Defined.

(** C7.  In every iteration, whatever the retriever, a status response that
    lacks [QueryExecution], or its [Status], or the [State] of that, leaves
    [state] and [fetch_results] as they were: the iteration raises nothing
    and the loop goes on with the decremented budget.  When all 20 responses
    of a call are such, the call returns and the state it reports is the
    initial [RUNNING]. *)
Theorem malformed_status_tolerated self :
  (forall r, reported_state r = None <->
             QueryExecution r = None
             \/ (exists qe, QueryExecution r = Some qe /\ Status qe = None)
             \/ (exists qe st, QueryExecution r = Some qe
                               /\ Status qe = Some st /\ State st = None))
  /\ (forall id n state log0 r,
        get_query_execution (athena_client self) (polls_in log0) id
        = Returned r ->
        reported_state r = None ->
        poll_loop self id (S n) state false log0
        = poll_loop self id n state false
            (log0 ++ [GetQueryExecution id; Sleep (sleep_duration n)]))
  /\ (forall query log SQLQuery log1 response statuses,
        generate_sql_query self query log = (Returned SQLQuery, log1) ->
        submit self SQLQuery = Returned response ->
        polled self (QueryExecutionId response) (polls_in log) 20
        = map Returned statuses ->
        Forall (fun r => reported_state r = None) statuses ->
        exists log',
          _get_relevant_documents self query log
          = (Returned [ {| page_content := "NA"; metadata := ∅ |};
                        metadata_document (QueryExecutionId response)
                          SQLQuery "RUNNING" ], log')
          /\ polls_in log' = polls_in log + 20).
Proof.
  split; [|split].
  - intros [[[[[[s|]]|]]|]]; unfold reported_state; simpl;
      (split;
       [ try discriminate; intros _;
         first [ by left | right; left; by eexists
               | right; right; by eexists _, _ ]
       | intros [?|[(?&?&?)|(?&?&?&?&?)]]; by simplify_eq/= ]).
  - intros id n state log0 r Hr Hnone.
    by rewrite (poll_loop_step self id n state log0 r Hr),
      (update_state_missing _ _ _ Hnone).
  - intros query log SQLQuery log1 response statuses Hg Hs Hp Hall.
    assert (Forall (fun r => ¬ succeeded r) statuses) as Hall'.
    { eapply Forall_impl; [exact Hall|]. unfold succeeded.
      intros r -> [=]. }
    assert (polls_in log1 = polls_in log) as Hpolls
      by apply (generate_sql_query_polls _ _ _ _ _ Hg).
    rewrite <- Hpolls in Hp.
    pose proof (execute_query_exhausted self _ _ _ _ Hs Hp Hall') as He.
    rewrite (observed_missing _ _ Hall) in He.
    eexists. split.
    + by rewrite (get_relevant_documents_generated _ _ _ _ _ Hg), He.
    + rewrite <- Hpolls. count_events.
Qed.

Lemma malformed_status_tolerated_witness :
  poll_loop malformed_once "q-1" 19 "QUEUED" false
    [GetQueryExecution "q-1"; Sleep (1 # 2)]
  = poll_loop malformed_once "q-1" 18 "QUEUED" false
      ([GetQueryExecution "q-1"; Sleep (1 # 2)]
         ++ [GetQueryExecution "q-1"; Sleep (sleep_duration 18)])
  /\ exists log',
      _get_relevant_documents always_malformed "total per order" []
      = (Returned [ {| page_content := "NA"; metadata := ∅ |};
                    metadata_document "q-1"
                      "SELECT order_id, order_total FROM orders"
                      "RUNNING" ], log')
      /\ polls_in log' = polls_in [] + 20.
Proof.
  split.
  - apply (proj1 (proj2 (malformed_status_tolerated malformed_once)) "q-1" 18
             "QUEUED" [GetQueryExecution "q-1"; Sleep (1 # 2)]
             without_execution).
    + reflexivity.
    + reflexivity.
  - apply (proj2 (proj2 (malformed_status_tolerated always_malformed))
             "total per order" []
             "SELECT order_id, order_total FROM orders"
             [InvokeModel "model" "total per order"]
             {| QueryExecutionId := "q-1" |}
             (replicate 20 without_execution)).
    + reflexivity.
    + reflexivity.
    + reflexivity.
    + apply Forall_replicate. reflexivity.
Defined.

(** C8.  When the submission raises, the exception leaves the call as it is:
    no document list is returned, and after the submission there is neither
    a poll nor a fetch. *)
Theorem submission_failure_propagates self query log SQLQuery log1 e :
  generate_sql_query self query log = (Returned SQLQuery, log1) ->
  submit self SQLQuery = Raised e ->
  _get_relevant_documents self query log
  = (Raised e, log1 ++ [submission self SQLQuery])
  /\ polls_in (log1 ++ [submission self SQLQuery]) = polls_in log
  /\ fetches_in (log1 ++ [submission self SQLQuery]) = fetches_in log.
Proof.
  intros Hg Hs. split; [|split].
  - by rewrite (get_relevant_documents_generated _ _ _ _ _ Hg),
      (execute_query_submit_raises _ _ _ _ Hs).
  - rewrite <- (generate_sql_query_polls _ _ _ _ _ Hg). count_events.
  - rewrite <- (generate_sql_query_fetches _ _ _ _ _ Hg). count_events.
Qed.

Lemma submission_failure_propagates_witness :
  _get_relevant_documents failing_submission "total per order" []
  = (Raised (ClientError "connection reset"),
     [InvokeModel "model" "total per order"]
       ++ [submission failing_submission
             "SELECT order_id, order_total FROM orders"])
  /\ polls_in ([InvokeModel "model" "total per order"]
                 ++ [submission failing_submission
                       "SELECT order_id, order_total FROM orders"])
     = polls_in []
  /\ fetches_in ([InvokeModel "model" "total per order"]
                   ++ [submission failing_submission
                         "SELECT order_id, order_total FROM orders"])
     = fetches_in [].
Proof.
  apply (submission_failure_propagates failing_submission "total per order"
           [] "SELECT order_id, order_total FROM orders"
           [InvokeModel "model" "total per order"]
           (ClientError "connection reset")).
  - reflexivity.
  - reflexivity.
Defined.

(** C9.  Whenever the call returns, the second document has empty content and
    a metadata dictionary with exactly the keys [executionID], [sqlQuery]
    and [queryState]; their values are the identifier the submission
    returned, the generated query, and the state last observed over the
    polls of this call. *)
Theorem metadata_document_fields self query log docs log' :
  _get_relevant_documents self query log = (Returned docs, log') ->
  exists SQLQuery log1 response statuses data meta,
    generate_sql_query self query log = (Returned SQLQuery, log1)
    /\ submit self SQLQuery = Returned response
    /\ polled self (QueryExecutionId response) (polls_in log)
              (length statuses) = map Returned statuses
    /\ polls_in log' = polls_in log + length statuses
    /\ docs = [data; meta]
    /\ page_content meta = EmptyString
    /\ dom (metadata meta)
       = ({[ "executionID"; "sqlQuery"; "queryState" ]} : gset string)
    /\ metadata meta !! "executionID" = Some (QueryExecutionId response)
    /\ metadata meta !! "sqlQuery" = Some SQLQuery
    /\ metadata meta !! "queryState" = Some (observed "RUNNING" statuses).
Proof.
  intros Hrun.
  apply get_relevant_documents_returns_inv in Hrun
    as (SQLQuery & log1 & id & state & results & value_str & Hg & He & _
        & ->).
  apply execute_query_returns_inv in He
    as (response & statuses & Hs & -> & _ & Hp & -> & Hcount).
  rewrite (generate_sql_query_polls _ _ _ _ _ Hg) in Hp, Hcount.
  exists SQLQuery, log1, response, statuses.
  eexists _, _. repeat split; try apply metadata_document_dom; done.
Qed.

Lemma metadata_document_fields_witness :
  exists SQLQuery log1 response statuses data meta,
    generate_sql_query succeeds_third "total per order" []
    = (Returned SQLQuery, log1)
    /\ submit succeeds_third SQLQuery = Returned response
    /\ polled succeeds_third (QueryExecutionId response) (polls_in [])
              (length statuses) = map Returned statuses
    /\ polls_in (_get_relevant_documents succeeds_third
                   "total per order" []).2
       = polls_in [] + length statuses
    /\ match (_get_relevant_documents succeeds_third
                "total per order" []).1 with
       | Returned docs => docs
       | Raised _ => []
       end = [data; meta]
    /\ page_content meta = EmptyString
    /\ dom (metadata meta)
       = ({[ "executionID"; "sqlQuery"; "queryState" ]} : gset string)
    /\ metadata meta !! "executionID" = Some (QueryExecutionId response)
    /\ metadata meta !! "sqlQuery" = Some SQLQuery
    /\ metadata meta !! "queryState" = Some (observed "RUNNING" statuses).
Proof.
  apply (metadata_document_fields succeeds_third "total per order" []).
  vm_compute. reflexivity.
Defined.

(** C10.  A fetched row set with no row gives a data document with empty
    content, which is not the sentinel: the content is ["NA"] exactly when
    the row set is null. *)
Theorem empty_row_set_is_not_sentinel executionID SQLQuery state :
  process_documents executionID SQLQuery state
    (Some {| ResultSet := {| Rows := [] |} |})
  = Returned [ {| page_content := EmptyString; metadata := ∅ |};
               metadata_document executionID SQLQuery state ]
  /\ EmptyString <> "NA"
  /\ forall athenaResults,
      process_documents executionID SQLQuery state athenaResults
      = Returned [ {| page_content := "NA"; metadata := ∅ |};
                   metadata_document executionID SQLQuery state ]
      <-> athenaResults = None.
Proof.
  split; [done|]. split; [done|].
  intros athenaResults. rewrite process_documents_spec. split.
  - destruct athenaResults as [results|]; [|done]. simpl.
    destruct (row_set results) as [rows|]; [|done].
    intros [= Hna]. by apply serialized_not_sentinel in Hna.
  - by intros ->.
Qed.

(** * Further properties of the code *)

(** ** Every way through the loop and the execution *)

Section Traces.

Variable self : AmazonAthenaRetriever.

Local Arguments poll_loop : simpl never.

(** After a status response [fetch_results] is set exactly when [state] is
    [SUCCEEDED]. *)
Lemma update_state_flag r state :
  state <> "SUCCEEDED" ->
  (update_state r state false).2 = true
  <-> (update_state r state false).1 = "SUCCEEDED".
Proof.
  intros Hstate. unfold update_state.
  destruct (reported_state r) as [s|]; simpl; [|by split].
  destruct (String.eqb_spec s "SUCCEEDED") as [->|Hs]; simpl; by split.
Qed.

(** How the loop is left when it returns. *)
Lemma poll_loop_exit id :
  forall n state fetch log n' state' fetch' log',
    (fetch = true <-> state = "SUCCEEDED") ->
    poll_loop self id n state fetch log
    = (Returned (n', state', fetch'), log') ->
    (fetch' = true <-> state' = "SUCCEEDED")
    /\ (fetch' = false -> n' = 0)
    /\ (n' = n -> fetch' = fetch).
Proof.
  induction n as [|n IH];
    intros state fetch log n' state' fetch' log' Hinv Hrun.
  - rewrite poll_loop_exhausted in Hrun. by injection Hrun as <- <- <- <-.
  - destruct fetch.
    { rewrite poll_loop_done in Hrun. by injection Hrun as <- <- <- <-. }
    destruct (get_query_execution (athena_client self) (polls_in log) id)
      as [r|e] eqn:Hr;
      [|by rewrite (poll_loop_raise _ _ _ _ _ _ Hr) in Hrun].
    rewrite (poll_loop_step _ _ _ _ _ _ Hr) in Hrun.
    assert (state <> "SUCCEEDED") as Hstate.
    { intros Hs. apply Hinv in Hs. discriminate. }
    pose proof (poll_loop_returns_inv _ _ _ _ _ _ _ _ _ _ Hrun)
      as (statuses & Hlen & _ & _ & Hn' & _).
    apply IH in Hrun as (Hflag & Hzero & _);
      [|by apply update_state_flag].
    repeat split; try tauto. intros ->. lia.
Qed.

(** The log of the loop, whatever the client answers: some iterations,
    and the poll that raised when one did. *)
Lemma poll_loop_trace id :
  forall n state fetch log,
    exists k, k <= n
      /\ ((exists state' fetch',
             poll_loop self id n state fetch log
             = (Returned (n - k, state', fetch'),
                log ++ iterations id n k))
          \/ (k < n
              /\ exists e,
                  poll_loop self id n state fetch log
                  = (Raised e,
                     log ++ iterations id n k ++ [GetQueryExecution id]))).
Proof.
  induction n as [|n IH]; intros state fetch log.
  - exists 0. split; [lia|]. left. exists state, fetch.
    rewrite poll_loop_exhausted. simpl. by rewrite app_nil_r.
  - destruct fetch.
    { exists 0. split; [lia|]. left. exists state, true.
      rewrite poll_loop_done. simpl. by rewrite app_nil_r. }
    destruct (get_query_execution (athena_client self) (polls_in log) id)
      as [r|e] eqn:Hr.
    + rewrite (poll_loop_step _ _ _ _ _ _ Hr).
      destruct (IH (update_state r state false).1
                   (update_state r state false).2
                   (log ++ [GetQueryExecution id; Sleep (sleep_duration n)]))
        as (k & Hk & [(state' & fetch' & Hrun)|(Hlt & e & Hrun)]).
      * exists (S k). split; [lia|]. left. exists state', fetch'.
        rewrite Hrun. simpl. by rewrite Nat.sub_0_r, <- app_assoc.
      * exists (S k). split; [lia|]. right. split; [lia|]. exists e.
        rewrite Hrun. simpl. by rewrite Nat.sub_0_r, <- app_assoc.
    + exists 0. split; [lia|]. right. split; [lia|]. exists e.
      by rewrite (poll_loop_raise _ _ _ _ _ _ Hr).
Qed.

End Traces.

Section ExecutionTraces.

Variable self : AmazonAthenaRetriever.

Local Arguments poll_loop : simpl never.

(** The three ways an execution goes: the submission raises; a poll raises;
    the loop is left, and the results are fetched when [SUCCEEDED] was
    seen. *)
Lemma execute_query_trace SQLQuery log :
  (exists e,
      submit self SQLQuery = Raised e
      /\ execute_query self SQLQuery log
         = (Raised e, log ++ [submission self SQLQuery]))
  \/ exists response k,
      submit self SQLQuery = Returned response
      /\ k <= 20
      /\ ((k < 20
           /\ exists e,
               execute_query self SQLQuery log
               = (Raised e,
                  log ++ [submission self SQLQuery]
                      ++ iterations (QueryExecutionId response) 20 k
                      ++ [GetQueryExecution (QueryExecutionId response)]))
          \/ exists state fetch,
              (fetch = true <-> state = "SUCCEEDED")
              /\ (fetch = false -> k = 20)
              /\ (fetch = true -> 1 <= k)
              /\ execute_query self SQLQuery log
                 = (if fetch then
                      match get_query_results (athena_client self)
                              (QueryExecutionId response) with
                      | Returned results =>
                          Returned (QueryExecutionId response, state,
                                    Some results)
                      | Raised e => Raised e
                      end
                    else Returned (QueryExecutionId response, state, None),
                    log ++ [submission self SQLQuery]
                        ++ iterations (QueryExecutionId response) 20 k
                        ++ after_loop (QueryExecutionId response) (20 - k)
                             fetch)).
Proof.
  destruct (submit self SQLQuery) as [response|e] eqn:Hs.
  - right. set (id := QueryExecutionId response).
    destruct (poll_loop_trace self id 20 "RUNNING" false
                (log ++ [submission self SQLQuery]))
      as (k & Hk & [(state & fetch & Hrun)|(Hlt & e & Hrun)]).
    + exists response, k. repeat split; [done|]. right.
      exists state, fetch.
      destruct (poll_loop_exit self id _ _ _ _ _ _ _ _
                  (conj (fun H : false = true => ltac:(discriminate H))
                        (fun H : "RUNNING" = "SUCCEEDED" =>
                           ltac:(discriminate H))) Hrun)
        as (Hflag & Hzero & Hsame).
      split; [done|]. split; [intros ->; specialize (Hzero eq_refl); lia|].
      split.
      { intros ->. destruct k; [|lia].
        by specialize (Hsame eq_refl). }
      rewrite (execute_query_after_loop self _ _ _ _ _ _ _ Hs Hrun).
      fold id. unfold after_loop.
      destruct fetch; by rewrite <- !app_assoc.
    + exists response, k. repeat split; [done|]. left. split; [done|].
      exists e.
      rewrite (execute_query_loop_raises self _ _ _ _ _ Hs Hrun).
      by rewrite <- !app_assoc.
  - left. exists e. split; [done|]. by apply execute_query_submit_raises.
Qed.

End ExecutionTraces.

(** ** Failures of the collaborators *)

Lemma submissions_in_app (l1 l2 : list event) :
  submissions_in (l1 ++ l2) = submissions_in l1 + submissions_in l2.
Proof. apply count_app. Qed.

Lemma invocations_in_app (l1 l2 : list event) :
  invocations_in (l1 ++ l2) = invocations_in l1 + invocations_in l2.
Proof. apply count_app. Qed.

Lemma submissions_in_iterations id n k :
  submissions_in (iterations id n k) = 0.
Proof. revert n; induction k as [|k IH]; intros n; [done|]. apply IH. Qed.

Lemma invocations_in_iterations id n k :
  invocations_in (iterations id n k) = 0.
Proof. revert n; induction k as [|k IH]; intros n; [done|]. apply IH. Qed.

Ltac count_effects :=
  rewrite ?polls_in_app, ?fetches_in_app, ?submissions_in_app,
    ?invocations_in_app, ?polls_in_iterations, ?fetches_in_iterations,
    ?submissions_in_iterations, ?invocations_in_iterations;
  unfold polls_in, fetches_in, submissions_in, invocations_in, count;
  simpl; lia.

Lemma generate_sql_query_submissions self query log o log1 :
  generate_sql_query self query log = (o, log1) ->
  submissions_in log1 = submissions_in log.
Proof.
  intros Hg. apply generate_sql_query_log in Hg as [->| ->]; [done|].
  count_effects.
Qed.

Lemma get_relevant_documents_not_generated self query log e log1 :
  generate_sql_query self query log = (Raised e, log1) ->
  _get_relevant_documents self query log = (Raised e, log1).
Proof.
  intros Hg. unfold _get_relevant_documents, bind at 1. by rewrite Hg.
Qed.

(** A poll raises after [length before] polls that did not see
    [SUCCEEDED]. *)
Lemma execute_query_poll_raises self SQLQuery log response before e :
  submit self SQLQuery = Returned response ->
  length before < 20 ->
  polled self (QueryExecutionId response) (polls_in log) (S (length before))
  = map Returned before ++ [Raised e] ->
  Forall (fun r => ¬ succeeded r) before ->
  execute_query self SQLQuery log
  = (Raised e,
     log ++ [submission self SQLQuery]
         ++ iterations (QueryExecutionId response) 20 (length before)
         ++ [GetQueryExecution (QueryExecutionId response)]).
Proof.
  intros Hs Hlen Hp Hall.
  set (id := QueryExecutionId response) in *.
  rewrite polled_snoc in Hp.
  apply app_inj_2 in Hp as [Hp Hlast]; [|done].
  injection Hlast as Hlast.
  apply (execute_query_loop_raises self SQLQuery log response e _ Hs).
  fold id.
  rewrite (poll_loop_running self id before);
    rewrite ?polls_in_submission; [|lia|done|done].
  replace (20 - length before) with (S (20 - S (length before))) by lia.
  rewrite (poll_loop_raise self id _ _ _ e).
  - by rewrite <- !app_assoc.
  - by rewrite polls_in_app, polls_in_submission, polls_in_iterations.
Qed.

(** X1.  When the generation of the query raises, the call raises the same
    exception, and neither a submission nor a poll nor a fetch is made. *)
Theorem generation_failure_propagates self query log e log1 :
  generate_sql_query self query log = (Raised e, log1) ->
  _get_relevant_documents self query log = (Raised e, log1)
  /\ submissions_in log1 = submissions_in log
  /\ polls_in log1 = polls_in log
  /\ fetches_in log1 = fetches_in log.
Proof.
  intros Hg. split; [by apply get_relevant_documents_not_generated|].
  split; [by apply (generate_sql_query_submissions _ _ _ _ _ Hg)|].
  split; [by apply (generate_sql_query_polls _ _ _ _ _ Hg)|].
  by apply (generate_sql_query_fetches _ _ _ _ _ Hg).
Qed.

(** X2.  A retriever without a Bedrock client raises [ValueError] on every
    call, before any effect: the log is left as it was. *)
Theorem missing_bedrock_client_raises self query log :
  bedrock_client self = None ->
  _get_relevant_documents self query log
  = (Raised (ValueError "Bedrock client is not initialized."), log).
Proof.
  intros Hnone. apply get_relevant_documents_not_generated.
  unfold generate_sql_query. by rewrite Hnone.
Qed.

(** X3.  When a poll raises after polls that did not see [SUCCEEDED], the
    exception leaves the call at once: no sleep follows that poll, the
    budget is not printed and nothing is fetched. *)
Theorem poll_failure_propagates
    self query log SQLQuery log1 response before e :
  generate_sql_query self query log = (Returned SQLQuery, log1) ->
  submit self SQLQuery = Returned response ->
  length before < 20 ->
  polled self (QueryExecutionId response) (polls_in log) (S (length before))
  = map Returned before ++ [Raised e] ->
  Forall (fun r => ¬ succeeded r) before ->
  _get_relevant_documents self query log
  = (Raised e,
     log1 ++ [submission self SQLQuery]
          ++ iterations (QueryExecutionId response) 20 (length before)
          ++ [GetQueryExecution (QueryExecutionId response)])
  /\ polls_in (_get_relevant_documents self query log).2
     = polls_in log + S (length before)
  /\ fetches_in (_get_relevant_documents self query log).2 = fetches_in log.
Proof.
  intros Hg Hs Hlen Hp Hall.
  rewrite <- (generate_sql_query_polls _ _ _ _ _ Hg) in Hp.
  assert (_get_relevant_documents self query log
          = (Raised e,
             log1 ++ [submission self SQLQuery]
                  ++ iterations (QueryExecutionId response) 20 (length before)
                  ++ [GetQueryExecution (QueryExecutionId response)]))
    as Hrun.
  { by rewrite (get_relevant_documents_generated _ _ _ _ _ Hg),
      (execute_query_poll_raises _ _ _ _ _ _ Hs Hlen Hp Hall). }
  rewrite Hrun. split; [done|]. cbn [snd].
  rewrite <- (generate_sql_query_polls _ _ _ _ _ Hg),
    <- (generate_sql_query_fetches _ _ _ _ _ Hg).
  split; count_effects.
Qed.

(** X4.  When [SUCCEEDED] is seen and the fetch of the results raises, the
    call raises that exception after exactly one fetch: no document is
    returned. *)
Theorem fetch_failure_propagates
    self query log SQLQuery log1 response before r e :
  generate_sql_query self query log = (Returned SQLQuery, log1) ->
  submit self SQLQuery = Returned response ->
  length before < 20 ->
  polled self (QueryExecutionId response) (polls_in log) (S (length before))
  = map Returned (before ++ [r]) ->
  Forall (fun r => ¬ succeeded r) before ->
  succeeded r ->
  get_query_results (athena_client self) (QueryExecutionId response)
  = Raised e ->
  (_get_relevant_documents self query log).1 = Raised e
  /\ fetches_in (_get_relevant_documents self query log).2
     = fetches_in log + 1.
Proof.
  intros Hg Hs Hlen Hp Hall Hr Hfetch.
  rewrite <- (generate_sql_query_polls _ _ _ _ _ Hg) in Hp.
  rewrite (get_relevant_documents_generated _ _ _ _ _ Hg),
    (execute_query_succeeds _ _ _ _ _ _ Hs Hlen Hp Hall Hr), Hfetch.
  split; [done|]. cbn [snd].
  rewrite <- (generate_sql_query_fetches _ _ _ _ _ Hg). count_effects.
Qed.

Lemma generation_failure_propagates_witness :
  _get_relevant_documents with_failing_bedrock "total per order" []
  = (Raised (ClientError "model not ready"),
     [InvokeModel "model" "total per order"])
  /\ submissions_in [InvokeModel "model" "total per order"]
     = submissions_in []
  /\ polls_in [InvokeModel "model" "total per order"] = polls_in []
  /\ fetches_in [InvokeModel "model" "total per order"] = fetches_in [].
Proof.
  apply (generation_failure_propagates with_failing_bedrock
           "total per order" []).
  reflexivity.
Defined.

Lemma missing_bedrock_client_raises_witness :
  _get_relevant_documents without_bedrock "total per order" []
  = (Raised (ValueError "Bedrock client is not initialized."), []).
Proof.
  apply (missing_bedrock_client_raises without_bedrock "total per order" []).
  reflexivity.
Defined.

Lemma poll_failure_propagates_witness :
  _get_relevant_documents poll_fails_third "total per order" []
  = (Raised (ClientError "throttled"),
     [InvokeModel "model" "total per order"]
       ++ [submission poll_fails_third
             "SELECT order_id, order_total FROM orders"]
       ++ iterations "q-1" 20 2 ++ [GetQueryExecution "q-1"])
  /\ polls_in (_get_relevant_documents poll_fails_third
                 "total per order" []).2 = polls_in [] + 3
  /\ fetches_in (_get_relevant_documents poll_fails_third
                   "total per order" []).2 = fetches_in [].
Proof.
  apply (poll_failure_propagates poll_fails_third "total per order" []
           "SELECT order_id, order_total FROM orders"
           [InvokeModel "model" "total per order"]
           {| QueryExecutionId := "q-1" |}
           [status_of (Some "RUNNING"); status_of (Some "RUNNING")]
           (ClientError "throttled")).
  - reflexivity.
  - reflexivity.
  - simpl. lia.
  - reflexivity.
  - repeat constructor; unfold succeeded; simpl; discriminate.
Defined.

Lemma fetch_failure_propagates_witness :
  (_get_relevant_documents fetch_fails "total per order" []).1
  = Raised (ClientError "access denied")
  /\ fetches_in (_get_relevant_documents fetch_fails "total per order" []).2
     = fetches_in [] + 1.
Proof.
  apply (fetch_failure_propagates fetch_fails "total per order" []
           "SELECT order_id, order_total FROM orders"
           [InvokeModel "model" "total per order"]
           {| QueryExecutionId := "q-1" |}
           [] (status_of (Some "SUCCEEDED"))
           (ClientError "access denied")).
  - reflexivity.
  - reflexivity.
  - simpl. lia.
  - reflexivity.
  - constructor.
  - reflexivity.
  - reflexivity.
Defined.

(** ** The effects of a call *)

Lemma generate_sql_query_returned_log self query log SQLQuery log1 :
  generate_sql_query self query log = (Returned SQLQuery, log1) ->
  log1 = log ++ [InvokeModel (model_id self) query].
Proof.
  unfold generate_sql_query, sql_generator, bind, emit, lift, raise, ret.
  destruct (bedrock_client self) as [client|]; [|done].
  destruct (invoke_model client query (model_id self)) as [body|e];
    [destruct (content body)|]; by intros [= <- <-].
Qed.

(** The shape of an execution that returns. *)
Lemma execute_query_returned_shape
    self SQLQuery log id state athenaResults log' :
  execute_query self SQLQuery log
  = (Returned (id, state, athenaResults), log') ->
  exists response k fetch,
    submit self SQLQuery = Returned response
    /\ id = QueryExecutionId response
    /\ 1 <= k <= 20
    /\ (fetch = false -> k = 20)
    /\ (fetch = true <-> state = "SUCCEEDED")
    /\ (fetch = true <-> is_Some athenaResults)
    /\ log' = log ++ [submission self SQLQuery]
                  ++ iterations id 20 k ++ after_loop id (20 - k) fetch.
Proof.
  intros Hrun.
  destruct (execute_query_trace self SQLQuery log)
    as [(e & _ & He)|(response & k & Hs & Hk & [(_ & e & He)|Hret])];
    [by rewrite He in Hrun|by rewrite He in Hrun|].
  destruct Hret as (state0 & fetch & Hflag & Hzero & Hone & He).
  rewrite He in Hrun. exists response, k, fetch.
  destruct fetch.
  - destruct (get_query_results _ _) as [results|e]; [|done].
    injection Hrun as <- <- <- <-.
    specialize (Hone eq_refl).
    split_and!; try done; try lia; by split; [eexists|].
  - injection Hrun as <- <- <- <-.
    specialize (Hzero eq_refl).
    split_and!; try done; try lia; by split; [|intros [? ?]].
Qed.

(** The log of a call is the log of its generation, or of its execution. *)
Lemma get_relevant_documents_log self query log :
  (_get_relevant_documents self query log).2
  = match generate_sql_query self query log with
    | (Returned SQLQuery, log1) => (execute_query self SQLQuery log1).2
    | (Raised _, log1) => log1
    end.
Proof.
  destruct (generate_sql_query self query log) as [[SQLQuery|e] log1] eqn:Hg.
  - rewrite (get_relevant_documents_generated _ _ _ _ _ Hg).
    by destruct (execute_query self SQLQuery log1)
      as [[[[id state] results]|e] log2].
  - by rewrite (get_relevant_documents_not_generated _ _ _ _ _ Hg).
Qed.

(** What a call adds to the log, whatever its outcome: at most the
    invocation and the submission, then some iterations of the loop, then at
    most the poll that raised, or the print and the fetch. *)
Lemma get_relevant_documents_effects self query log :
  exists before id k after,
    (_get_relevant_documents self query log).2
    = log ++ before ++ iterations id 20 k ++ after
    /\ invocations_in before <= 1 /\ submissions_in before <= 1
    /\ polls_in before = 0 /\ fetches_in before = 0
    /\ sleeps_in before = []
    /\ invocations_in after = 0 /\ submissions_in after = 0
    /\ k + polls_in after <= 20 /\ fetches_in after <= 1
    /\ sleeps_in after = [].
Proof.
  rewrite get_relevant_documents_log.
  destruct (generate_sql_query self query log) as [[SQLQuery|e] log1] eqn:Hg.
  - apply generate_sql_query_returned_log in Hg as ->.
    destruct (execute_query_trace self SQLQuery
                (log ++ [InvokeModel (model_id self) query]))
      as [(e & _ & He)
         |(response & k & Hs & Hk
           & [(Hlt & e & He)|(state & fetch & _ & _ & _ & He)])];
      rewrite He; cbn [snd].
    + exists [InvokeModel (model_id self) query; submission self SQLQuery],
        EmptyString, 0, [].
      rewrite <- !app_assoc. simpl. repeat split; try done; by compute; lia.
    + exists [InvokeModel (model_id self) query; submission self SQLQuery],
        (QueryExecutionId response), k,
        [GetQueryExecution (QueryExecutionId response)].
      rewrite <- !app_assoc. simpl.
      repeat split; try done; try (by compute; lia).
      unfold polls_in, count. simpl. lia.
    + exists [InvokeModel (model_id self) query; submission self SQLQuery],
        (QueryExecutionId response), k,
        (after_loop (QueryExecutionId response) (20 - k) fetch).
      rewrite <- !app_assoc. simpl.
      destruct fetch; repeat split; try done; try (by compute; lia);
        unfold polls_in, count; simpl; lia.
  - apply generate_sql_query_log in Hg as [->| ->].
    + exists [], EmptyString, 0, []. rewrite !app_nil_r.
      repeat split; try done; by compute; lia.
    + exists [InvokeModel (model_id self) query], EmptyString, 0, [].
      simpl. repeat split; try done; by compute; lia.
Qed.

Lemma sleeps_in_prefix id k :
  k <= 20 -> sleeps_in (iterations id 20 k) = take k full_schedule.
Proof.
  intros Hk. do 21 (destruct k as [|k]; [reflexivity|]). lia.
Qed.

Lemma total_sleep_prefix k :
  k <= 20 -> (total_sleep (take k full_schedule) <= 20)%Q.
Proof.
  intros Hk. do 21 (destruct k as [|k]; [vm_compute; discriminate|]). lia.
Qed.

Lemma generate_sql_query_sleeps self query log o log1 :
  generate_sql_query self query log = (o, log1) ->
  sleeps_in log1 = sleeps_in log.
Proof.
  intros Hg. apply generate_sql_query_log in Hg as [->| ->]; [done|].
  rewrite sleeps_in_app. simpl. by rewrite app_nil_r.
Qed.

(** X5.  The effects of a call that returns, in order: the invocation of the
    model, the submission, between 1 and 20 iterations of a poll and a sleep,
    the print of the remaining budget and, exactly when the reported state is
    [SUCCEEDED], one fetch.  All polls and the fetch are for the identifier
    the submission returned, and a call that returns without a fetch has
    made all 20 polls. *)
Theorem returning_call_trace self query log docs log' :
  _get_relevant_documents self query log = (Returned docs, log') ->
  exists SQLQuery response k state fetch,
    submit self SQLQuery = Returned response
    /\ 1 <= k <= 20
    /\ (fetch = false -> k = 20)
    /\ docs !! 1
       = Some (metadata_document (QueryExecutionId response) SQLQuery state)
    /\ (fetch = true <-> state = "SUCCEEDED")
    /\ log' = log ++ [InvokeModel (model_id self) query;
                      submission self SQLQuery]
                  ++ iterations (QueryExecutionId response) 20 k
                  ++ after_loop (QueryExecutionId response) (20 - k) fetch.
Proof.
  intros Hrun.
  apply get_relevant_documents_returns_inv in Hrun
    as (SQLQuery & log1 & id & state & results & value_str & Hg & He & _
        & ->).
  apply generate_sql_query_returned_log in Hg as ->.
  apply execute_query_returned_shape in He
    as (response & k & fetch & Hs & -> & Hk & Hzero & Hflag & _ & ->).
  exists SQLQuery, response, k, state, fetch.
  split_and!; try done; try lia. by rewrite <- !app_assoc.
Qed.

Lemma returning_call_trace_witness :
  exists SQLQuery response k state fetch,
    submit succeeds_third SQLQuery = Returned response
    /\ 1 <= k <= 20
    /\ (fetch = false -> k = 20)
    /\ match (_get_relevant_documents succeeds_third
                "total per order" []).1 with
       | Returned docs => docs
       | Raised _ => []
       end !! 1
       = Some (metadata_document (QueryExecutionId response) SQLQuery state)
    /\ (fetch = true <-> state = "SUCCEEDED")
    /\ (_get_relevant_documents succeeds_third "total per order" []).2
       = [] ++ [InvokeModel (model_id succeeds_third) "total per order";
                submission succeeds_third SQLQuery]
            ++ iterations (QueryExecutionId response) 20 k
            ++ after_loop (QueryExecutionId response) (20 - k) fetch.
Proof.
  apply (returning_call_trace succeeds_third "total per order" []).
  vm_compute. reflexivity.
Defined.

(** X6.  In the documents of a call that returns, the data document is the
    sentinel ["NA"] exactly when the [queryState] of the metadata document
    is not [SUCCEEDED]. *)
Theorem sentinel_iff_not_succeeded self query log docs log' :
  _get_relevant_documents self query log = (Returned docs, log') ->
  exists data meta state,
    docs = [data; meta]
    /\ metadata meta !! "queryState" = Some state
    /\ (page_content data = "NA" <-> state <> "SUCCEEDED").
Proof.
  intros Hrun.
  apply get_relevant_documents_returns_inv in Hrun
    as (SQLQuery & log1 & id & state & results & value_str & _ & He
        & Hcontent & ->).
  apply execute_query_returned_shape in He
    as (response & k & fetch & _ & _ & _ & _ & Hflag & Hsome & _).
  eexists _, _, state. split; [done|]. split; [done|]. simpl.
  split.
  - intros ->. apply data_content_sentinel in Hcontent as ->.
    intros Hstate. apply Hflag, Hsome in Hstate as [? [=]].
  - intros Hstate. destruct results as [results|].
    + destruct Hstate. apply Hflag, Hsome. by eexists.
    + by injection Hcontent as <-.
Qed.

Lemma sentinel_iff_not_succeeded_witness :
  exists data meta state,
    match (_get_relevant_documents fails_at_once "total per order" []).1 with
    | Returned docs => docs
    | Raised _ => []
    end = [data; meta]
    /\ metadata meta !! "queryState" = Some state
    /\ (page_content data = "NA" <-> state <> "SUCCEEDED").
Proof.
  apply (sentinel_iff_not_succeeded fails_at_once "total per order" []
           _ (_get_relevant_documents fails_at_once "total per order" []).2).
  vm_compute. reflexivity.
Defined.

(** X7.  Whatever the collaborators answer, the sleeps of a call are the
    first [k] entries of the schedule of twenty, for some [k <= 20]: a call
    never sleeps more than 20 seconds in total, which is what the full
    schedule adds up to. *)
Theorem blocking_time_bounded self query log :
  exists k,
    k <= 20
    /\ sleeps_in (_get_relevant_documents self query log).2
       = sleeps_in log ++ take k full_schedule
    /\ (total_sleep (take k full_schedule) <= 20)%Q
    /\ (total_sleep full_schedule == 20)%Q.
Proof.
  destruct (get_relevant_documents_effects self query log)
    as (before & id & k & after & -> & _ & _ & _ & _ & Hb & _ & _ & Hk & _
        & Ha).
  exists k. split; [lia|]. split; [|split].
  - rewrite !sleeps_in_app, Hb, Ha, sleeps_in_prefix by lia.
    simpl. by rewrite app_nil_r.
  - apply total_sleep_prefix. lia.
  - reflexivity.
Qed.

(** X8.  Whatever the collaborators answer, a call makes at most one
    invocation of the model, one submission, 20 status polls and one fetch
    of results. *)
Theorem effects_bounded self query log :
  invocations_in (_get_relevant_documents self query log).2
  <= invocations_in log + 1
  /\ submissions_in (_get_relevant_documents self query log).2
     <= submissions_in log + 1
  /\ polls_in (_get_relevant_documents self query log).2
     <= polls_in log + 20
  /\ fetches_in (_get_relevant_documents self query log).2
     <= fetches_in log + 1.
Proof.
  destruct (get_relevant_documents_effects self query log)
    as (before & id & k & after & -> & Hbi & Hbs & Hbp & Hbf & _ & Hai & Has
        & Hk & Haf & _).
  rewrite !invocations_in_app, !submissions_in_app, !polls_in_app,
    !fetches_in_app, invocations_in_iterations, submissions_in_iterations,
    polls_in_iterations, fetches_in_iterations.
  lia.
Qed.

(** ** The serialization of the rows *)

Lemma concatenation_app parts1 parts2 :
  concatenation (parts1 ++ parts2)
  = concatenation parts1 +:+ concatenation parts2.
Proof.
  induction parts1 as [|part parts1 IH]; [done|].
  simpl. by rewrite IH, append_assoc.
Qed.

Lemma row_set_app (rows1 rows2 : list Row) :
  mapM cells (rows1 ++ rows2)
  = match mapM cells rows1, mapM cells rows2 with
    | Some values1, Some values2 => Some (values1 ++ values2)
    | _, _ => None
    end.
Proof.
  induction rows1 as [|row rows1 IH]; simpl.
  - by destruct (mapM cells rows2).
  - destruct (cells row) as [values|]; simpl; [|done]. rewrite IH.
    by destruct (mapM cells rows1), (mapM cells rows2).
Qed.

(** X9.  The content of the data document of two row lists put one after
    the other is the content of the first followed by the content of the
    second; when a cell of either has no value, it is the [KeyError] of the
    first list that raises.  For rows of string cells both contents exist. *)
Theorem serialization_composes (rows1 rows2 : list Row) :
  data_document (Some {| ResultSet := {| Rows := rows1 ++ rows2 |} |})
  = match data_document (Some {| ResultSet := {| Rows := rows1 |} |}),
          data_document (Some {| ResultSet := {| Rows := rows2 |} |}) with
    | Returned data1, Returned data2 =>
        Returned {| page_content := page_content data1 +:+ page_content data2;
                    metadata := ∅ |}
    | Raised e, _ => Raised e
    | Returned _, Raised e => Raised e
    end
  /\ forall values1 values2 : list (list string),
      exists content1 content2,
        data_document (Some (results_of values1))
        = Returned {| page_content := content1; metadata := ∅ |}
        /\ data_document (Some (results_of values2))
           = Returned {| page_content := content2; metadata := ∅ |}
        /\ data_document (Some (results_of (values1 ++ values2)))
           = Returned {| page_content := content1 +:+ content2;
                         metadata := ∅ |}.
Proof.
  split.
  - rewrite !data_document_some. unfold row_set. simpl.
    rewrite row_set_app.
    destruct (mapM cells rows1) as [values1|],
             (mapM cells rows2) as [values2|]; try done.
    simpl. unfold serialized. by rewrite map_app, concatenation_app.
  - intros values1 values2. eexists _, _.
    rewrite !data_document_results_of. split; [done|]. split; [done|].
    unfold serialized. by rewrite map_app, concatenation_app.
Qed.

(** X10.  The content does not determine the rows: a cell that holds the
    separator reads as two cells, and a cell that holds ["]["] reads as two
    rows. *)
Theorem serialization_is_ambiguous (a b : string) :
  data_document (Some (results_of [[a +:+ ", " +:+ b]]))
  = data_document (Some (results_of [[a; b]]))
  /\ data_document (Some (results_of [[a +:+ "][" +:+ b]]))
     = data_document (Some (results_of [[a]; [b]]))
  /\ row_set (results_of [[a +:+ ", " +:+ b]]) <> row_set (results_of [[a; b]])
  /\ row_set (results_of [[a +:+ "][" +:+ b]])
     <> row_set (results_of [[a]; [b]]).
Proof.
  rewrite !data_document_results_of, !row_set_results_of.
  split; [done|]. split; [|split; discriminate].
  unfold serialized, bracketed. simpl.
  by rewrite !append_nil_r, !append_assoc.
Qed.

(** X11.  For a fetched result the content of the data document is empty
    exactly when the result has no row. *)
Theorem empty_content_iff_no_rows results :
  data_document (Some results)
  = Returned {| page_content := EmptyString; metadata := ∅ |}
  <-> Rows (ResultSet results) = [].
Proof.
  rewrite data_document_some. unfold serialized, row_set.
  destruct (Rows (ResultSet results)) as [|row rows]; simpl; [done|].
  split; [|done].
  destruct (cells row) as [values|]; simpl; [|done].
  destruct (mapM cells rows) as [rows'|]; simpl; [|done]. by intros [=].
Qed.

(** ** The validator *)

(** X12.  [create_client] accepts a configuration exactly when its
    [athena_client] is present and not [None], and then returns it
    unchanged; otherwise it raises [ValueError].  No other key is looked
    at: setting or removing [bedrock_client] changes nothing. *)
Theorem create_client_checks_athena_only
    (object : Type) (values : gmap string (option object)) :
  (is_Some (dict_get object values "athena_client") ->
   create_client object values = Returned (Some values))
  /\ (dict_get object values "athena_client" = None ->
      create_client object values = Raised (ValueError credentials_message))
  /\ (forall key value, key <> "athena_client" ->
        (create_client object (<[key := value]> values)
         = Returned (Some (<[key := value]> values))
         <-> create_client object values = Returned (Some values)))
  /\ (forall key, key <> "athena_client" ->
        (create_client object (delete key values)
         = Returned (Some (delete key values))
         <-> create_client object values = Returned (Some values))).
Proof.
  unfold create_client, check_client, dict_get. split_and!.
  - intros [client Hclient].
    destruct (values !! "athena_client") as [[?|]|]; by simplify_eq.
  - intros Hnone.
    destruct (values !! "athena_client") as [[?|]|]; by simplify_eq.
  - intros key value Hkey. rewrite lookup_insert_ne by done.
    by destruct (values !! "athena_client") as [[?|]|].
  - intros key Hkey. rewrite lookup_delete_ne by done.
    by destruct (values !! "athena_client") as [[?|]|].
Qed.

Lemma create_client_checks_athena_only_witness :
  create_client unit {["athena_client" := Some tt]}
  = Returned (Some {["athena_client" := Some tt]})
  /\ create_client unit {["bedrock_client" := Some tt]}
     = Raised (ValueError credentials_message).
Proof.
  split.
  - apply (proj1 (create_client_checks_athena_only unit
                    {["athena_client" := Some tt]})).
    exists tt. reflexivity.
  - apply (proj1 (proj2 (create_client_checks_athena_only unit
                           {["bedrock_client" := Some tt]}))).
    reflexivity.
Defined.
